(** * Multi-agent blog generator: the LangChain pipeline of [main.py]

    A shallow embedding of [src/main.py]: the three agent functions, the
    [RunnableSequence] that chains them, the [/generate] and [/health] route
    handlers and the module initialisation that builds the model client.

    Python dictionaries with string keys and string values are [gmap string
    string]; a raised exception is the left summand of the result; the calls
    made to the chat model are recorded, in order, in a log that every
    computation threads through. *)

From Stdlib Require Import String Ascii ZArith QArith.
From stdpp Require Import gmap strings list fin_maps.

Local Open Scope string_scope.
Local Open Scope list_scope.

(** ** Python runtime *)

(** The exceptions the module can meet: a failed subscript, the [ValueError]
    of [get_llm], and whatever [llm.invoke] raises (provider or network
    errors), kept as the text [str] gives for it. All are subclasses of
    [Exception]. *)
Inductive exn : Type :=
  | KeyError (key : string)
  | ValueError (msg : string)
  | ProviderError (msg : string).

(** [HumanMessage(content=...)] of langchain.schema. *)
Inductive Message : Type :=
  | HumanMessage (content : string).

(** The chat model handle built by [get_llm]. *)
Record ChatOpenAI : Type := {
  model : string;
  temperature : Q;
  api_key : string
}.

(** The log of model calls: one entry, the list of messages sent, per call of
    [llm.invoke], oldest first. *)
Definition World : Type := list (list Message).

(** Computations that read and extend the log and either raise an [E] or
    return an [A]. *)
Definition M (E A : Type) : Type := World -> (E + A) * World.

Definition ret {E A : Type} (a : A) : M E A := fun w => (inr a, w).

Definition raise {E A : Type} (e : E) : M E A := fun w => (inl e, w).

Definition bind {E A B : Type} (m : M E A) (k : A -> M E B) : M E B :=
  fun w =>
    match m w with
    | (inr a, w') => k a w'
    | (inl e, w') => (inl e, w')
    end.

(** [try: m except Exception as e: h e]. *)
Definition try_except {E E' A : Type} (m : M E A) (h : E -> M E' A) : M E' A :=
  fun w =>
    match m w with
    | (inr a, w') => (inr a, w')
    | (inl e, w') => h e w'
    end.

Notation "'let!' x ':=' m 'in' k" := (bind m (fun x => k))
  (at level 10, x name, m at level 100, k at level 200).

(** [d[k]]: the value, or [KeyError(k)]. *)
Definition getitem {E : Type} (err : string -> E) (d : gmap string string)
    (k : string) : M E string :=
  match d !! k with
  | Some v => ret v
  | None => raise (err k)
  end.

(** [d.get(k, dflt)]. *)
Definition dict_get (d : gmap string string) (k dflt : string) : string :=
  default dflt (d !! k).

(** Truth value of an [Optional[str]]: [None] and the empty string are
    false. *)
Definition truthy (o : option string) : bool :=
  match o with
  | None => false
  | Some s => negb (String.eqb s EmptyString)
  end.

(** ** Text of the prompts *)

Definition nl : string := String "010"%char EmptyString.
Definition dquote : string := String "034"%char EmptyString.

(** The lines of a triple-quoted literal, joined by newlines. *)
Fixpoint unlines (ls : list string) : string :=
  match ls with
  | [] => EmptyString
  | [l] => l
  | l :: rest => l +:+ nl +:+ unlines rest
  end.

Definition research_prompt (topic tone length : string) : string :=
  unlines [
    EmptyString;
    "You are a research agent. Research the topic: " +:+ dquote +:+ topic +:+ dquote;
    EmptyString;
    "Provide:";
    "1. Key points to cover";
    "2. Important facts and statistics";
    "3. Structured outline for a " +:+ length +:+ " blog post";
    "4. Relevant angles and perspectives";
    EmptyString;
    "Tone: " +:+ tone;
    "    " ].

Definition writer_prompt (research topic tone words : string) : string :=
  unlines [
    EmptyString;
    "You are a professional blog writer. Write a complete blog post based on the following research:";
    EmptyString;
    "Research:";
    research;
    EmptyString;
    "Requirements:";
    "- Topic: " +:+ topic;
    "- Tone: " +:+ tone;
    "- Length: " +:+ words +:+ " words";
    "- Engaging introduction, clear headings, strong conclusion, SEO-friendly.";
    "    " ].

Definition reviewer_prompt (draft tone : string) : string :=
  unlines [
    EmptyString;
    "You are an editorial reviewer. Review and polish this draft:";
    EmptyString;
    "Draft:";
    draft;
    EmptyString;
    "Check for:";
    "1. Grammar and spelling";
    "2. Flow and readability";
    "3. Tone consistency (" +:+ tone +:+ ")";
    "4. SEO optimization";
    EmptyString;
    "Return the final polished version.";
    "    " ].

(** The literal dictionary of [writer_agent]. *)
Definition word_count : gmap string string :=
  <["short" := "500-700"]> (<["medium" := "800-1200"]> (<["long" := "1500-2000"]> ∅)).

(** ** Request and response models *)

Module BlogRequest.
Record t : Type := {
  topic : string;
  tone : string;
  length : string
}.

Definition default_tone : string := "professional".
Definition default_length : string := "medium".

(** Construction from the fields of a request body: [topic] is required,
    [tone] and [length] fall back on the defaults of the class, other
    fields are ignored. [None] stands for the validation error. *)
Definition validate (body : gmap string string) : option t :=
  match body !! "topic" with
  | None => None
  | Some tp =>
      Some {| topic := tp;
              tone := default default_tone (body !! "tone");
              length := default default_length (body !! "length") |}
  end.
End BlogRequest.

Module BlogResponse.
Record t : Type := {
  topic : string;
  research : string;
  draft : string;
  final_blog : string;
  status : string
}.
End BlogResponse.

(** [HTTPException(status_code=..., detail=...)]. *)
Record HTTPException : Type := {
  status_code : Z;
  detail : string
}.

(** ** Module initialisation *)

Definition OPENAI_API_KEY : string := "OPENAI_API_KEY".

(** [load_dotenv()]: variables of the [.env] file are added to the process
    environment, those already set keep their value. *)
Definition load_dotenv (dotenv environ : gmap string string) : gmap string string :=
  environ ∪ dotenv.

Definition getenv (environ : gmap string string) (k : string) : option string :=
  environ !! k.

Definition get_llm (environ : gmap string string) : exn + ChatOpenAI :=
  let key := getenv environ OPENAI_API_KEY in
  if negb (truthy key)
  then inl (ValueError "OPENAI_API_KEY not found in environment variables")
  else inr {| model := "gpt-4o-mini";
              temperature := 7 # 10;
              api_key := default EmptyString key |}.

(** What importing the module leaves behind when it succeeds: the global
    [llm] the route handlers close over. *)
Record App : Type := {
  llm_of : ChatOpenAI
}.

(** The top-level statements of the module, in order: [load_dotenv()], then
    [llm = get_llm()]; the routes exist only once both have run. *)
Definition module_init (dotenv environ : gmap string string) : exn + App :=
  let environ' := load_dotenv dotenv environ in
  match get_llm environ' with
  | inl e => inl e
  | inr client => inr {| llm_of := client |}
  end.

(** ** The agents, the chain and the routes *)

Section Service.

(** [repr] of a Python string, as [str(KeyError(k))] prints the key. *)
Variable repr : string -> string.

(** The provider behind [llm.invoke]: from the client, the calls already
    made and the messages sent, either the content of the reply or the
    exception raised. *)
Variable provider : ChatOpenAI -> World -> list Message -> exn + string.

(** The module global [llm]. *)
Variable llm : ChatOpenAI.

(** [str(e)]. *)
Definition str_exn (e : exn) : string :=
  match e with
  | KeyError k => repr k
  | ValueError msg => msg
  | ProviderError msg => msg
  end.

(** [llm.invoke(messages).content]: one call to the provider, logged. *)
Definition llm_invoke (messages : list Message) : M exn string :=
  fun w => (provider llm w messages, w ++ [messages]).

Definition research_agent (inputs : gmap string string)
    : M exn (gmap string string) :=
  let! topic := getitem KeyError inputs "topic" in
  let! tone := getitem KeyError inputs "tone" in
  let! length := getitem KeyError inputs "length" in
  let prompt := research_prompt topic tone length in
  let! result := llm_invoke [HumanMessage prompt] in
  ret (<["research" := result]> inputs).

Definition writer_agent (inputs : gmap string string)
    : M exn (gmap string string) :=
  let! research := getitem KeyError inputs "research" in
  let! topic := getitem KeyError inputs "topic" in
  let! tone := getitem KeyError inputs "tone" in
  let! length := getitem KeyError inputs "length" in
  let! words := getitem KeyError word_count length in
  let prompt := writer_prompt research topic tone words in
  let! result := llm_invoke [HumanMessage prompt] in
  ret (<["draft" := result]> inputs).

Definition reviewer_agent (inputs : gmap string string)
    : M exn (gmap string string) :=
  let! draft := getitem KeyError inputs "draft" in
  let! tone := getitem KeyError inputs "tone" in
  let prompt := reviewer_prompt draft tone in
  let! result := llm_invoke [HumanMessage prompt] in
  ret (<["final_blog" := result]> inputs).

(** *** RunnableSequence *)

(** A step of a chain: a function from the state to the next state. *)
Definition Step : Type := gmap string string -> M exn (gmap string string).

(** A [RunnableSequence] is the list of its steps, first to last. *)
Definition RunnableSequence : Type := list Step.

Definition RunnableLambda (f : Step) : RunnableSequence := [f].

(** The [|] operator: the steps of the left operand, then those of the
    right one. *)
Definition pipe (a b : RunnableSequence) : RunnableSequence := a ++ b.

(** [chain.invoke(input)]: each step is run on the output of the step
    before it; an exception ends the run. *)
Fixpoint invoke (chain : RunnableSequence) (input : gmap string string)
    : M exn (gmap string string) :=
  match chain with
  | [] => ret input
  | step :: rest => let! output := step input in invoke rest output
  end.

Definition blog_chain : RunnableSequence :=
  pipe (pipe (RunnableLambda research_agent) (RunnableLambda writer_agent))
       (RunnableLambda reviewer_agent).

(** *** Routes *)

Definition health_check : M HTTPException (gmap string string) :=
  ret (<["status" := "healthy"]> (<["version" := "3.0.0"]> ∅)).

(** The dictionary [generate_blog] builds from the request. *)
Definition request_inputs (request : BlogRequest.t) : gmap string string :=
  <["topic" := BlogRequest.topic request]>
    (<["tone" := BlogRequest.tone request]>
       (<["length" := BlogRequest.length request]> ∅)).

(** The [BlogResponse(...)] expression of [generate_blog]. *)
Definition success_response (request : BlogRequest.t)
    (final_state : gmap string string) : BlogResponse.t :=
  {| BlogResponse.topic := BlogRequest.topic request;
     BlogResponse.research := dict_get final_state "research" EmptyString;
     BlogResponse.draft := dict_get final_state "draft" EmptyString;
     BlogResponse.final_blog := dict_get final_state "final_blog" EmptyString;
     BlogResponse.status := "success" |}.

(** The body of the [try] block, over the chain the global [blog_chain]
    names when the handler runs. *)
Definition generate_blog_try (chain : RunnableSequence)
    (request : BlogRequest.t) : M exn BlogResponse.t :=
  let inputs := request_inputs request in
  let! final_state := invoke chain inputs in
  ret (success_response request final_state).

Definition generate_blog_with (chain : RunnableSequence)
    (request : BlogRequest.t) : M HTTPException BlogResponse.t :=
  try_except (generate_blog_try chain request)
    (fun e => raise {| status_code := 500; detail := str_exn e |}).

Definition generate_blog (request : BlogRequest.t)
    : M HTTPException BlogResponse.t :=
  generate_blog_with blog_chain request.

(** *** What the client receives *)

(** A response: the status line and the fields of the JSON body. *)
Record Response : Type := {
  code : Z;
  body : gmap string string
}.

(** A returned [BlogResponse] is sent as 200 with its five fields. *)
Definition response_body (r : BlogResponse.t) : gmap string string :=
  <["topic" := BlogResponse.topic r]>
    (<["research" := BlogResponse.research r]>
       (<["draft" := BlogResponse.draft r]>
          (<["final_blog" := BlogResponse.final_blog r]>
             (<["status" := BlogResponse.status r]> ∅)))).

(** A raised [HTTPException] is sent with its status code and a body
    holding its detail. *)
Definition error_body (e : HTTPException) : gmap string string :=
  <["detail" := detail e]> ∅.

Definition send {A : Type} (render : A -> gmap string string)
    (o : HTTPException + A) : Response :=
  match o with
  | inr a => {| code := 200; body := render a |}
  | inl e => {| code := status_code e; body := error_body e |}
  end.

(** [POST /generate] on a validated request. *)
Definition post_generate (request : BlogRequest.t) : World -> Response * World :=
  fun w => let (o, w') := generate_blog request w in (send response_body o, w').

(** [POST /generate] on the fields of a body: a body the model class
    rejects is answered 422 before the handler runs (of the detail of that
    answer only the name of the missing field is kept). *)
Definition post_generate_body (fields : gmap string string)
    : World -> Response * World :=
  match BlogRequest.validate fields with
  | Some request => post_generate request
  | None => fun w => ({| code := 422; body := <["detail" := "topic"]> ∅ |}, w)
  end.

(** [GET /health]. *)
Definition get_health : World -> Response * World :=
  fun w => let (o, w') := health_check w in (send id o, w').

End Service.

(** ** The application *)

Inductive HttpRequest : Type :=
  | GET_health
  | POST_generate (fields : gmap string string).

(** The routes of an imported module. *)
Definition serve (repr : string -> string)
    (provider : ChatOpenAI -> World -> list Message -> exn + string)
    (app : App) (rq : HttpRequest) : World -> Response * World :=
  match rq with
  | GET_health => get_health
  | POST_generate fields => post_generate_body repr provider (llm_of app) fields
  end.

(** Starting the program: the module is imported, and requests are served
    only when that has not raised. *)
Definition start (repr : string -> string)
    (provider : ChatOpenAI -> World -> list Message -> exn + string)
    (dotenv environ : gmap string string)
    : exn + (HttpRequest -> World -> Response * World) :=
  match module_init dotenv environ with
  | inl e => inl e
  | inr app => inr (serve repr provider app)
  end.

(** ** JSON bodies *)

(** A JSON value as Python decodes it: [None], a boolean, a number, a
    string, a list, or a dictionary with string keys. *)
#[local] Set Warnings "-register-all".
Inductive json : Type :=
  | JNull
  | JBool (b : bool)
  | JNumber (q : Q)
  | JString (s : string)
  | JArray (items : list json)
  | JObject (members : gmap string json).
#[local] Set Warnings "register-all".

(** A field declared [str] takes a JSON string and refuses any other
    value, [null] included. *)
Definition str_field (v : json) : option string :=
  match v with
  | JString s => Some s
  | _ => None
  end.

(** A field declared [str] with a default: the default when the body does
    not have it, else as [str_field]. *)
Definition str_field_or (dflt : string) (o : option json) : option string :=
  match o with
  | None => Some dflt
  | Some v => str_field v
  end.

(** [BlogRequest] built from the JSON object of a request body: the
    request, or the name of the first field that is refused, [topic] when
    it is missing. Fields the class does not declare are ignored. *)
Definition validate_json (fields : gmap string json) : string + BlogRequest.t :=
  match fields !! "topic" ≫= str_field with
  | None => inl "topic"
  | Some topic =>
      match str_field_or BlogRequest.default_tone (fields !! "tone") with
      | None => inl "tone"
      | Some tone =>
          match str_field_or BlogRequest.default_length (fields !! "length") with
          | None => inl "length"
          | Some length =>
              inr {| BlogRequest.topic := topic;
                     BlogRequest.tone := tone;
                     BlogRequest.length := length |}
          end
      end
  end.

(** [POST /generate] on a JSON object: a body the model class refuses is
    answered 422 before the handler runs (of the detail of that answer only
    the name of the first refused field is kept). *)
Definition post_generate_json (repr : string -> string)
    (provider : ChatOpenAI -> World -> list Message -> exn + string)
    (llm : ChatOpenAI) (fields : gmap string json) : World -> Response * World :=
  match validate_json fields with
  | inr request => post_generate repr provider llm request
  | inl field => fun w => ({| code := 422; body := <["detail" := field]> ∅ |}, w)
  end.

(** ** The test script [test_api.py] *)

(** A Python text as [len] and slices see it: the list of its code
    points. *)
Definition text : Type := list N.

(** The three dots of the literal ["..."]. *)
Definition dots : text := [46%N; 46%N; 46%N].

(** What [test_blog_generation] prints of a text [t]:
    [t[:500] + "..." if len(t) > 500 else t]. *)
Definition preview (t : text) : text :=
  if (500 <? List.length t)%nat then take 500 t ++ dots else t.

(** What a request of the script gets back: the status code, and what
    [response.json()] gives, [None] standing for a body that is not JSON. *)
Record Reply : Type := {
  status : Z;
  decoded : option json
}.

(** The exceptions of the script: a request that got no response, a body
    that is not JSON, a subscript with no such key, an operation on a value
    of the wrong type. *)
Inductive script_exn : Type :=
  | RequestException (msg : string)
  | JSONDecodeError
  | ScriptKeyError (key : string)
  | TypeError.

(** [response.json()]. *)
Definition response_json (response : Reply) : M script_exn json :=
  match decoded response with
  | Some value => ret value
  | None => raise JSONDecodeError
  end.

(** [data[key]]: only a dictionary can be subscripted by a string. *)
Definition subscript (data : json) (key : string) : M script_exn json :=
  match data with
  | JObject members =>
      match members !! key with
      | Some v => ret v
      | None => raise (ScriptKeyError key)
      end
  | _ => raise TypeError
  end.

(** Whether [v[:500] + "..." if len(v) > 500 else v] has a value: [len]
    raises on [None], a boolean and a number; a string has a value on both
    branches; a list or a dictionary of more than 500 entries raises on the
    first branch (a list and a string do not add, a dictionary has no
    slice) and is its own value on the second. *)
Definition previewable (v : json) : bool :=
  match v with
  | JString _ => true
  | JArray items => negb (500 <? List.length items)%nat
  | JObject members => negb (500 <? size members)%nat
  | JNull | JBool _ | JNumber _ => false
  end.

(** Evaluating that expression in order to print it. *)
Definition print_preview (v : json) : M script_exn unit :=
  if previewable v then ret tt else raise TypeError.

Section TestApi.

(** [requests.get] and [requests.post] on the API: the reply of the
    server, or the exception of a request that got none. Serving a request
    may call the model, so the log is threaded through. *)
Variable http : HttpRequest -> M script_exn Reply.

(** The value [test_health_check] returns. Printing is taken never to
    raise and what is printed is left out; the call [response.json()] made
    for the second line printed is kept. *)
Definition test_health_check : M script_exn bool :=
  try_except
    (let! response := http GET_health in
     if (status response =? 200)%Z
     then let! shown := response_json response in ret true
     else ret false)
    (fun _ => ret false).

(** The value [test_blog_generation] returns, printing left out likewise.
    On a 200 the body is decoded and the three texts are read out of it and
    previewed, research first. *)
Definition test_blog_generation (topic tone length : string) : M script_exn bool :=
  let payload :=
    <["topic" := topic]> (<["tone" := tone]> (<["length" := length]> ∅)) in
  try_except
    (let! response := http (POST_generate payload) in
     if (status response =? 200)%Z
     then
       let! data := response_json response in
       let! research := subscript data "research" in
       let! shown_research := print_preview research in
       let! draft := subscript data "draft" in
       let! shown_draft := print_preview draft in
       let! final_blog := subscript data "final_blog" in
       let! shown_final_blog := print_preview final_blog in
       ret true
     else ret false)
    (fun _ => ret false).

End TestApi.

(** The API reached over HTTP: every request gets the response of the
    application, whose body is a JSON object of strings. *)
Definition via_app (repr : string -> string)
    (provider : ChatOpenAI -> World -> list Message -> exn + string)
    (app : App) : HttpRequest -> M script_exn Reply :=
  fun rq w => let (response, w') := serve repr provider app rq w in
              (inr {| status := code response;
                      decoded := Some (JObject (JString <$> body response)) |},
               w').

(** ** Vocabulary of the statements *)

(** What a stage may do to the state: [out] has a value under [key], agrees
    with [inputs] on every other key, has the keys of [inputs] and [key],
    and one key more than [inputs] when [key] was not there. *)
Definition only_adds (key : string) (inputs out : gmap string string) : Prop :=
  is_Some (out !! key) /\
  (forall k, k <> key -> out !! k = inputs !! k) /\
  dom out = {[key]} ∪ dom inputs /\
  (inputs !! key = None -> size out = S (size inputs)).

(** An agent makes at most one model call, and exactly one when it
    returns. *)
Definition one_call (w : World) {A : Type} (o : exn + A) (w' : World) : Prop :=
  exists later,
    w' = w ++ later /\
    match o with
    | inr _ => List.length later = 1
    | inl _ => (List.length later <= 1)%nat
    end.

(** Whether the body of a reply decodes to a dictionary whose research,
    draft and final blog can each be previewed. *)
Definition shows_three_texts (reply : Reply) : bool :=
  match decoded reply with
  | Some (JObject data) =>
      match data !! "research", data !! "draft", data !! "final_blog" with
      | Some research, Some draft, Some final_blog =>
          previewable research && previewable draft && previewable final_blog
      | _, _, _ => false
      end
  | _ => false
  end.

(** ** Sample values *)

(** [repr] of a string with no quote, backslash or control character in it:
    the string between single quotes. *)
Definition plain_repr (s : string) : string := "'" +:+ s +:+ "'".

(** A provider that plays a script: the n-th call gets the n-th entry, a
    call past the script fails. *)
Definition scripted (script : list (exn + string))
    : ChatOpenAI -> World -> list Message -> exn + string :=
  fun _ w _ =>
    default (inl (ProviderError "Connection error.")) (script !! List.length w).

Definition sample_llm : ChatOpenAI :=
  {| model := "gpt-4o-mini"; temperature := 7 # 10; api_key := "sk-sample" |}.

Definition request_huge : BlogRequest.t :=
  {| BlogRequest.topic := "AI";
     BlogRequest.tone := "casual";
     BlogRequest.length := "huge" |}.

Definition request_medium : BlogRequest.t :=
  {| BlogRequest.topic := "AI";
     BlogRequest.tone := "professional";
     BlogRequest.length := "medium" |}.

(** A server that answers every request 200 with a body that is not
    JSON. *)
Definition not_json_server : HttpRequest -> M script_exn Reply :=
  fun _ w => (inr {| status := 200; decoded := None |}, w).

(** A server that answers every request 200 with a dictionary that has the
    three texts, the research being a number. *)
Definition number_server : HttpRequest -> M script_exn Reply :=
  fun _ w =>
    (inr {| status := 200;
            decoded := Some (JObject (<["research" := JNumber (1 # 1)]>
                                        (<["draft" := JString "D"]>
                                           (<["final_blog" := JString "F"]> ∅)))) |},
     w).

(** ** Properties *)

Section Properties.

Context (repr : string -> string).
Context (provider : ChatOpenAI -> World -> list Message -> exn + string).
Context (llm : ChatOpenAI).

Local Abbreviation str_exn := (str_exn repr).
Local Abbreviation research_agent := (research_agent provider llm).
Local Abbreviation writer_agent := (writer_agent provider llm).
Local Abbreviation reviewer_agent := (reviewer_agent provider llm).
Local Abbreviation blog_chain := (blog_chain provider llm).
Local Abbreviation generate_blog_with := (generate_blog_with repr).
Local Abbreviation generate_blog := (generate_blog repr provider llm).
Local Abbreviation post_generate := (post_generate repr provider llm).
Local Abbreviation post_generate_body := (post_generate_body repr provider llm).

(** *** The monad and the dictionaries *)

Lemma bind_returns {E A B : Type} (m : M E A) (k : A -> M E B) w b w'' :
  bind m k w = (inr b, w'') <->
  exists a w', m w = (inr a, w') /\ k a w' = (inr b, w'').
Proof.
  unfold bind. split.
  - destruct (m w) as [[e|a] w'] eqn:Hm; [discriminate|]. intros Hk. eauto.
  - intros (a & w' & Hm & Hk). by rewrite Hm.
Qed.

Lemma bind_raises {E A B : Type} (m : M E A) (k : A -> M E B) w e w'' :
  bind m k w = (inl e, w'') <->
  m w = (inl e, w'') \/ exists a w', m w = (inr a, w') /\ k a w' = (inl e, w'').
Proof.
  unfold bind. split.
  - destruct (m w) as [[e0|a] w'] eqn:Hm.
    + intros [= -> ->]. by left.
    + intros Hk. right. eauto.
  - intros [Hm | (a & w' & Hm & Hk)]; by rewrite Hm.
Qed.

Lemma word_count_recognized (l : string) :
  l ∈ ["short"; "medium"; "long"] <-> is_Some (word_count !! l).
Proof.
  unfold word_count. rewrite !elem_of_cons, elem_of_nil.
  rewrite !lookup_insert_is_Some, lookup_empty. split.
  - intros [-> | [-> | [-> | []]]]; [by left | right; split; [done | by left] | ].
    right; split; [done | right; split; [done | by left]].
  - intros [-> | [_ [-> | [_ [-> | [_ [x Hx]]]]]]]; try discriminate; eauto.
Qed.

Lemma word_count_unknown (l : string) :
  l ∉ ["short"; "medium"; "long"] <-> word_count !! l = None.
Proof. rewrite word_count_recognized, eq_None_not_Some. tauto. Qed.

Lemma request_inputs_topic request :
  request_inputs request !! "topic" = Some (BlogRequest.topic request).
Proof. unfold request_inputs. by simplify_map_eq. Qed.

Lemma request_inputs_tone request :
  request_inputs request !! "tone" = Some (BlogRequest.tone request).
Proof. unfold request_inputs. by simplify_map_eq. Qed.

Lemma request_inputs_length request :
  request_inputs request !! "length" = Some (BlogRequest.length request).
Proof. unfold request_inputs. by simplify_map_eq. Qed.

(** *** What each agent computes *)

Lemma research_agent_eq inputs w :
  research_agent inputs w =
    match inputs !! "topic", inputs !! "tone", inputs !! "length" with
    | None, _, _ => (inl (KeyError "topic"), w)
    | Some _, None, _ => (inl (KeyError "tone"), w)
    | Some _, Some _, None => (inl (KeyError "length"), w)
    | Some topic, Some tone, Some length =>
        let messages := [HumanMessage (research_prompt topic tone length)] in
        match provider llm w messages with
        | inl e => (inl e, w ++ [messages])
        | inr result => (inr (<["research" := result]> inputs), w ++ [messages])
        end
    end.
Proof.
  unfold research_agent, bind, getitem, llm_invoke, ret, raise.
  destruct (inputs !! "topic"), (inputs !! "tone"), (inputs !! "length");
    reflexivity.
Qed.

Lemma writer_agent_eq inputs w :
  writer_agent inputs w =
    match inputs !! "research", inputs !! "topic", inputs !! "tone",
          inputs !! "length" with
    | None, _, _, _ => (inl (KeyError "research"), w)
    | Some _, None, _, _ => (inl (KeyError "topic"), w)
    | Some _, Some _, None, _ => (inl (KeyError "tone"), w)
    | Some _, Some _, Some _, None => (inl (KeyError "length"), w)
    | Some research, Some topic, Some tone, Some length =>
        match word_count !! length with
        | None => (inl (KeyError length), w)
        | Some words =>
            let messages := [HumanMessage (writer_prompt research topic tone words)] in
            match provider llm w messages with
            | inl e => (inl e, w ++ [messages])
            | inr result => (inr (<["draft" := result]> inputs), w ++ [messages])
            end
        end
    end.
Proof.
  unfold writer_agent, bind, getitem, llm_invoke, ret, raise.
  destruct (inputs !! "research"), (inputs !! "topic"), (inputs !! "tone"),
    (inputs !! "length") as [length|]; try reflexivity.
  destruct (word_count !! length); reflexivity.
Qed.

Lemma reviewer_agent_eq inputs w :
  reviewer_agent inputs w =
    match inputs !! "draft", inputs !! "tone" with
    | None, _ => (inl (KeyError "draft"), w)
    | Some _, None => (inl (KeyError "tone"), w)
    | Some draft, Some tone =>
        let messages := [HumanMessage (reviewer_prompt draft tone)] in
        match provider llm w messages with
        | inl e => (inl e, w ++ [messages])
        | inr result => (inr (<["final_blog" := result]> inputs), w ++ [messages])
        end
    end.
Proof.
  unfold reviewer_agent, bind, getitem, llm_invoke, ret, raise.
  destruct (inputs !! "draft"), (inputs !! "tone"); reflexivity.
Qed.

(** When an agent returns, it has read its fields, made one model call that
    answered, and stored the answer under its own key. *)
Lemma research_agent_returns inputs w out w' :
  research_agent inputs w = (inr out, w') <->
  exists topic tone length result,
    inputs !! "topic" = Some topic /\ inputs !! "tone" = Some tone /\
    inputs !! "length" = Some length /\
    provider llm w [HumanMessage (research_prompt topic tone length)] = inr result /\
    out = <["research" := result]> inputs /\
    w' = w ++ [[HumanMessage (research_prompt topic tone length)]].
Proof.
  rewrite research_agent_eq. split.
  - destruct (inputs !! "topic") as [tp|], (inputs !! "tone") as [tn|],
      (inputs !! "length") as [ln|]; try discriminate.
    cbv zeta. destruct (provider llm w _) as [e|r] eqn:Hp; [discriminate|].
    intros [= <- <-]. by exists tp, tn, ln, r.
  - intros (tp & tn & ln & r & -> & -> & -> & Hp & -> & ->).
    cbv zeta. by rewrite Hp.
Qed.

Lemma writer_agent_returns inputs w out w' :
  writer_agent inputs w = (inr out, w') <->
  exists research topic tone length words result,
    inputs !! "research" = Some research /\ inputs !! "topic" = Some topic /\
    inputs !! "tone" = Some tone /\ inputs !! "length" = Some length /\
    word_count !! length = Some words /\
    provider llm w [HumanMessage (writer_prompt research topic tone words)]
      = inr result /\
    out = <["draft" := result]> inputs /\
    w' = w ++ [[HumanMessage (writer_prompt research topic tone words)]].
Proof.
  rewrite writer_agent_eq. split.
  - destruct (inputs !! "research") as [rs|], (inputs !! "topic") as [tp|],
      (inputs !! "tone") as [tn|], (inputs !! "length") as [ln|];
      try discriminate.
    destruct (word_count !! ln) as [wc|] eqn:Hwc; [|discriminate].
    cbv zeta. destruct (provider llm w _) as [e|r] eqn:Hp; [discriminate|].
    intros [= <- <-]. by exists rs, tp, tn, ln, wc, r.
  - intros (rs & tp & tn & ln & wc & r & -> & -> & -> & -> & Hwc & Hp & -> & ->).
    rewrite Hwc. cbv zeta. by rewrite Hp.
Qed.

Lemma reviewer_agent_returns inputs w out w' :
  reviewer_agent inputs w = (inr out, w') <->
  exists draft tone result,
    inputs !! "draft" = Some draft /\ inputs !! "tone" = Some tone /\
    provider llm w [HumanMessage (reviewer_prompt draft tone)] = inr result /\
    out = <["final_blog" := result]> inputs /\
    w' = w ++ [[HumanMessage (reviewer_prompt draft tone)]].
Proof.
  rewrite reviewer_agent_eq. split.
  - destruct (inputs !! "draft") as [dr|], (inputs !! "tone") as [tn|];
      try discriminate.
    cbv zeta. destruct (provider llm w _) as [e|r] eqn:Hp; [discriminate|].
    intros [= <- <-]. by exists dr, tn, r.
  - intros (dr & tn & r & -> & -> & Hp & -> & ->). cbv zeta. by rewrite Hp.
Qed.

(** An agent only appends to the log of model calls. *)
Ltac log_extends :=
  cbv zeta; intros; repeat case_match; simplify_eq;
  first [by exists []; rewrite app_nil_r | by eexists].

Lemma research_agent_log inputs w o w' :
  research_agent inputs w = (o, w') -> exists later, w' = w ++ later.
Proof. rewrite research_agent_eq. log_extends. Qed.

Lemma writer_agent_log inputs w o w' :
  writer_agent inputs w = (o, w') -> exists later, w' = w ++ later.
Proof. rewrite writer_agent_eq. log_extends. Qed.

Lemma reviewer_agent_log inputs w o w' :
  reviewer_agent inputs w = (o, w') -> exists later, w' = w ++ later.
Proof. rewrite reviewer_agent_eq. log_extends. Qed.

(** *** The chain and the handler, unfolded *)

Lemma invoke_blog_chain inputs :
  invoke blog_chain inputs =
    (let! s1 := research_agent inputs in
     let! s2 := writer_agent s1 in
     let! s3 := reviewer_agent s2 in
     ret s3).
Proof. reflexivity. Qed.

Lemma generate_blog_with_eq chain request w :
  generate_blog_with chain request w =
    match invoke chain (request_inputs request) w with
    | (inr final_state, w') => (inr (success_response request final_state), w')
    | (inl e, w') => (inl {| status_code := 500; detail := str_exn e |}, w')
    end.
Proof.
  unfold generate_blog_with, generate_blog_try, try_except, bind, ret, raise.
  by destruct (invoke chain (request_inputs request) w) as [[e|final_state] w'].
Qed.

Lemma post_generate_eq request w :
  post_generate request w =
    match generate_blog request w with
    | (inr r, w') => ({| code := 200; body := response_body r |}, w')
    | (inl e, w') => ({| code := status_code e; body := error_body e |}, w')
    end.
Proof.
  unfold post_generate. by destruct (generate_blog request w) as [[e|r] w'].
Qed.

(** The research agent on the dictionary built from a request: the three
    fields are there, so its outcome is that of its model call. *)
Lemma research_agent_on_request request w :
  research_agent (request_inputs request) w =
    let messages :=
      [HumanMessage (research_prompt (BlogRequest.topic request)
                       (BlogRequest.tone request) (BlogRequest.length request))] in
    match provider llm w messages with
    | inl e => (inl e, w ++ [messages])
    | inr result =>
        (inr (<["research" := result]> (request_inputs request)), w ++ [messages])
    end.
Proof.
  rewrite research_agent_eq.
  by rewrite request_inputs_topic, request_inputs_tone, request_inputs_length.
Qed.

(** The writer on a state whose length has no entry in [word_count]: the
    subscript raises before any model call. *)
Lemma writer_agent_unknown_length inputs w research topic tone length :
  inputs !! "research" = Some research -> inputs !! "topic" = Some topic ->
  inputs !! "tone" = Some tone -> inputs !! "length" = Some length ->
  word_count !! length = None ->
  writer_agent inputs w = (inl (KeyError length), w).
Proof.
  intros Hr Htp Htn Hln Hwc. rewrite writer_agent_eq.
  by rewrite Hr, Htp, Htn, Hln, Hwc.
Qed.

(** The same state after the research stage of a request. *)
Lemma writer_agent_after_research_unknown_length request research w :
  word_count !! BlogRequest.length request = None ->
  writer_agent (<["research" := research]> (request_inputs request)) w =
    (inl (KeyError (BlogRequest.length request)), w).
Proof.
  intros Hwc.
  apply writer_agent_unknown_length
    with (research := research) (topic := BlogRequest.topic request)
         (tone := BlogRequest.tone request); [by simplify_map_eq| | | |done].
  - rewrite lookup_insert_ne by done. apply request_inputs_topic.
  - rewrite lookup_insert_ne by done. apply request_inputs_tone.
  - rewrite lookup_insert_ne by done. apply request_inputs_length.
Qed.

(** The handler on such a request: the error of the research call when it
    fails, the [KeyError] of the writer otherwise. *)
Lemma generate_blog_unknown_length request w :
  word_count !! BlogRequest.length request = None ->
  generate_blog request w =
    let messages :=
      [HumanMessage (research_prompt (BlogRequest.topic request)
                       (BlogRequest.tone request) (BlogRequest.length request))] in
    match provider llm w messages with
    | inl e =>
        (inl {| status_code := 500; detail := str_exn e |}, w ++ [messages])
    | inr _ =>
        (inl {| status_code := 500;
                detail := str_exn (KeyError (BlogRequest.length request)) |},
         w ++ [messages])
    end.
Proof.
  intros Hwc. unfold generate_blog.
  rewrite generate_blog_with_eq, invoke_blog_chain. unfold bind at 1.
  rewrite research_agent_on_request. cbv zeta.
  destruct (provider llm w _) as [e|research]; [done|].
  unfold bind at 1.
  by rewrite writer_agent_after_research_unknown_length.
Qed.

(** *** The claims *)

(** C1. A request whose length is none of short, medium and long never gets
    a success response: the handler raises the 500 error whatever the model
    does. When the model answers the research call, the research stage
    succeeds, the writer stage raises [KeyError] on the subscript of
    [word_count] by that length, without calling the model, and [/generate]
    answers 500 with the text of that [KeyError] as detail. *)
Theorem unknown_length_fails_in_writer (request : BlogRequest.t) (w : World) :
  BlogRequest.length request ∉ ["short"; "medium"; "long"] ->
  (exists d w',
     generate_blog request w = (inl {| status_code := 500; detail := d |}, w') /\
     post_generate request w =
       ({| code := 500; body := <["detail" := d]> ∅ |}, w')) /\
  (forall research,
     provider llm w
       [HumanMessage (research_prompt (BlogRequest.topic request)
                        (BlogRequest.tone request) (BlogRequest.length request))]
       = inr research ->
     exists w1,
       w1 = w ++ [[HumanMessage (research_prompt (BlogRequest.topic request)
                     (BlogRequest.tone request) (BlogRequest.length request))]] /\
       research_agent (request_inputs request) w =
         (inr (<["research" := research]> (request_inputs request)), w1) /\
       writer_agent (<["research" := research]> (request_inputs request)) w1 =
         (inl (KeyError (BlogRequest.length request)), w1) /\
       generate_blog request w =
         (inl {| status_code := 500;
                 detail := str_exn (KeyError (BlogRequest.length request)) |}, w1) /\
       post_generate request w =
         ({| code := 500;
             body := <["detail" := repr (BlogRequest.length request)]> ∅ |}, w1)).
Proof.
  intros Hlen. apply word_count_unknown in Hlen.
  pose proof (generate_blog_unknown_length request w Hlen) as Hg.
  cbv zeta in Hg. split.
  - rewrite post_generate_eq.
    destruct (provider llm w _) as [e|research]; rewrite Hg; by eauto.
  - intros research Hp. rewrite Hp in Hg. eexists; split; [reflexivity|].
    pose proof (research_agent_on_request request w) as Hr. cbv zeta in Hr.
    rewrite Hp in Hr. split; [exact Hr|].
    split; [by apply writer_agent_after_research_unknown_length|].
    split; [exact Hg|]. by rewrite post_generate_eq, Hg.
Qed.

(** C2. The chain is the list of the three agents, research, writer,
    reviewer, and a run is their composition in that order, each on the
    state the one before returned. A run returns exactly when the three of
    them return in turn: the research stage has put its text under
    [research], the writer its text under [draft] of that state, the
    reviewer its text under [final_blog] of the writer's state, and the
    model was called three times, in that order. A run raises exactly when
    one stage raises on the state of the stages before it; no later stage
    runs then. *)
Theorem blog_chain_three_stages_in_order (inputs : gmap string string) (w : World) :
  blog_chain = [research_agent; writer_agent; reviewer_agent] /\
  invoke blog_chain inputs w =
    (let! s1 := research_agent inputs in
     let! s2 := writer_agent s1 in
     let! s3 := reviewer_agent s2 in
     ret s3) w /\
  (forall final_state w',
     invoke blog_chain inputs w = (inr final_state, w') <->
     exists research draft final_blog p1 p2 p3,
       research_agent inputs w =
         (inr (<["research" := research]> inputs), w ++ [p1]) /\
       writer_agent (<["research" := research]> inputs) (w ++ [p1]) =
         (inr (<["draft" := draft]> (<["research" := research]> inputs)),
          w ++ [p1; p2]) /\
       reviewer_agent (<["draft" := draft]> (<["research" := research]> inputs))
           (w ++ [p1; p2]) =
         (inr final_state, w ++ [p1; p2; p3]) /\
       final_state =
         <["final_blog" := final_blog]>
           (<["draft" := draft]> (<["research" := research]> inputs)) /\
       w' = w ++ [p1; p2; p3]) /\
  (forall e w',
     invoke blog_chain inputs w = (inl e, w') <->
     research_agent inputs w = (inl e, w') \/
     (exists s1 w1,
        research_agent inputs w = (inr s1, w1) /\
        writer_agent s1 w1 = (inl e, w')) \/
     (exists s1 w1 s2 w2,
        research_agent inputs w = (inr s1, w1) /\
        writer_agent s1 w1 = (inr s2, w2) /\
        reviewer_agent s2 w2 = (inl e, w'))).
Proof.
  split; [reflexivity|]. split; [by rewrite invoke_blog_chain|].
  rewrite invoke_blog_chain. split.
  - intros final_state w'. rewrite bind_returns. split.
    + intros (s1 & w1 & H1 & H23). apply bind_returns in H23.
      destruct H23 as (s2 & w2 & H2 & H3). apply bind_returns in H3.
      destruct H3 as (s3 & w3 & H3 & [= -> ->]).
      pose proof H1 as H1'. pose proof H2 as H2'. pose proof H3 as H3'.
      apply research_agent_returns in H1'
        as (tp & tn & ln & r & _ & _ & _ & _ & -> & ->).
      apply writer_agent_returns in H2'
        as (rs & tp' & tn' & ln' & wc & d & _ & _ & _ & _ & _ & _ & -> & ->).
      apply reviewer_agent_returns in H3' as (dr & tn'' & f & _ & _ & _ & -> & ->).
      rewrite <- !app_assoc in *. simpl in *. by eauto 12.
    + intros (r & d & f & p1 & p2 & p3 & H1 & H2 & H3 & -> & ->).
      eexists _, _. split; [exact H1|]. apply bind_returns.
      eexists _, _. split; [exact H2|]. apply bind_returns.
      eexists _, _. split; [exact H3|]. reflexivity.
  - intros e w'. rewrite bind_raises. split.
    + intros [H1 | (s1 & w1 & H1 & H23)]; [by left|]. right.
      apply bind_raises in H23 as [H2 | (s2 & w2 & H2 & H3)]; [by eauto|].
      right. apply bind_raises in H3 as [H3 | (s3 & w3 & _ & [=])]. by eauto 8.
    + intros [H1 | [(s1 & w1 & H1 & H2) | (s1 & w1 & s2 & w2 & H1 & H2 & H3)]];
        [by left| |].
      * right. eexists _, _. split; [exact H1|]. apply bind_raises. by left.
      * right. eexists _, _. split; [exact H1|]. apply bind_raises. right.
        eexists _, _. split; [exact H2|]. apply bind_raises. by left.
Qed.

Lemma insert_only_adds key text (inputs : gmap string string) :
  only_adds key inputs (<[key := text]> inputs).
Proof.
  repeat split.
  - rewrite lookup_insert_eq. by eexists.
  - intros k Hk. by rewrite lookup_insert_ne.
  - by rewrite dom_insert_L.
  - intros Hnone. by apply map_size_insert_None.
Qed.

Lemma insert_over_present (key text : string) (inputs : gmap string string) :
  is_Some (inputs !! key) ->
  dom (<[key := text]> inputs) = dom inputs /\
  size (<[key := text]> inputs) = size inputs.
Proof.
  intros Hkey.
  assert (Hdom : dom (<[key := text]> inputs) = dom inputs).
  { rewrite dom_insert_L. apply elem_of_dom in Hkey.
    apply subseteq_union_1_L. by apply singleton_subseteq_l. }
  split; [exact Hdom|]. by rewrite <- !size_dom, Hdom.
Qed.

(** C3, as the code has it. Each stage returns exactly when the keys it
    reads are in the input state (with a recognized length for the writer)
    and its model call answers; the state it returns is the input state
    with its own key, [research] for the research agent, [draft] for the
    writer, [final_blog] for the reviewer, set to the reply of the model.
    Every other key is as it was: [topic], [tone], [length] and the texts
    of the other stages in particular. The key is one more key when the
    input state did not have it; when it had it, the reply takes the place
    of the old value and no key is added. *)
Theorem stages_set_their_key_and_keep_the_rest
    (inputs : gmap string string) (w : World) :
  (forall out w',
     research_agent inputs w = (inr out, w') <->
     exists topic tone length reply,
       inputs !! "topic" = Some topic /\ inputs !! "tone" = Some tone /\
       inputs !! "length" = Some length /\
       provider llm w [HumanMessage (research_prompt topic tone length)]
         = inr reply /\
       out = <["research" := reply]> inputs /\
       w' = w ++ [[HumanMessage (research_prompt topic tone length)]]) /\
  (forall out w',
     writer_agent inputs w = (inr out, w') <->
     exists research topic tone length words reply,
       inputs !! "research" = Some research /\ inputs !! "topic" = Some topic /\
       inputs !! "tone" = Some tone /\ inputs !! "length" = Some length /\
       word_count !! length = Some words /\
       provider llm w [HumanMessage (writer_prompt research topic tone words)]
         = inr reply /\
       out = <["draft" := reply]> inputs /\
       w' = w ++ [[HumanMessage (writer_prompt research topic tone words)]]) /\
  (forall out w',
     reviewer_agent inputs w = (inr out, w') <->
     exists draft tone reply,
       inputs !! "draft" = Some draft /\ inputs !! "tone" = Some tone /\
       provider llm w [HumanMessage (reviewer_prompt draft tone)] = inr reply /\
       out = <["final_blog" := reply]> inputs /\
       w' = w ++ [[HumanMessage (reviewer_prompt draft tone)]]) /\
  (forall key reply,
     (<[key := reply]> inputs) !! key = Some reply /\
     only_adds key inputs (<[key := reply]> inputs) /\
     (is_Some (inputs !! key) ->
        size (<[key := reply]> inputs) = size inputs)) /\
  (forall reply,
     (<["research" := reply]> inputs) !! "topic" = inputs !! "topic" /\
     (<["research" := reply]> inputs) !! "tone" = inputs !! "tone" /\
     (<["research" := reply]> inputs) !! "length" = inputs !! "length" /\
     (<["research" := reply]> inputs) !! "draft" = inputs !! "draft" /\
     (<["research" := reply]> inputs) !! "final_blog" = inputs !! "final_blog") /\
  (forall reply,
     (<["draft" := reply]> inputs) !! "topic" = inputs !! "topic" /\
     (<["draft" := reply]> inputs) !! "tone" = inputs !! "tone" /\
     (<["draft" := reply]> inputs) !! "length" = inputs !! "length" /\
     (<["draft" := reply]> inputs) !! "research" = inputs !! "research" /\
     (<["draft" := reply]> inputs) !! "final_blog" = inputs !! "final_blog") /\
  (forall reply,
     (<["final_blog" := reply]> inputs) !! "topic" = inputs !! "topic" /\
     (<["final_blog" := reply]> inputs) !! "tone" = inputs !! "tone" /\
     (<["final_blog" := reply]> inputs) !! "length" = inputs !! "length" /\
     (<["final_blog" := reply]> inputs) !! "research" = inputs !! "research" /\
     (<["final_blog" := reply]> inputs) !! "draft" = inputs !! "draft").
Proof.
  split; [intros; apply research_agent_returns|].
  split; [intros; apply writer_agent_returns|].
  split; [intros; apply reviewer_agent_returns|].
  split.
  { intros key reply. split; [by rewrite lookup_insert_eq|].
    split; [apply insert_only_adds|].
    intros Hkey. by apply insert_over_present. }
  split; [|split]; intros reply; by rewrite !lookup_insert_ne.
Qed.

(** C4. On every request the handler either returns a response, whose
    status is the string success and which is sent with code 200, or raises
    the [HTTPException] of code 500 whose detail is [str] of the exception
    the [try] block raised; no exception of the block gets past the
    handler. A returned response never has another status. *)
Theorem generate_blog_success_or_500 (request : BlogRequest.t) (w : World) :
  ((exists response w',
      generate_blog_try blog_chain request w = (inr response, w') /\
      generate_blog request w = (inr response, w') /\
      BlogResponse.status response = "success" /\
      post_generate request w =
        ({| code := 200; body := response_body response |}, w') /\
      response_body response !! "status" = Some "success") \/
   (exists e w',
      generate_blog_try blog_chain request w = (inl e, w') /\
      generate_blog request w =
        (inl {| status_code := 500; detail := str_exn e |}, w') /\
      post_generate request w =
        ({| code := 500; body := <["detail" := str_exn e]> ∅ |}, w'))) /\
  (forall response w',
     generate_blog request w = (inr response, w') ->
     BlogResponse.status response = "success").
Proof.
  assert (Hg : generate_blog request w =
    try_except (generate_blog_try blog_chain request)
      (fun e => raise {| status_code := 500; detail := str_exn e |}) w)
    by reflexivity.
  unfold try_except, raise in Hg.
  assert (Hst : forall response w',
    generate_blog_try blog_chain request w = (inr response, w') ->
    BlogResponse.status response = "success").
  { unfold generate_blog_try. intros response w' Hrun.
    apply bind_returns in Hrun as (final_state & w1 & _ & [= <- _]).
    reflexivity. }
  destruct (generate_blog_try blog_chain request w) as [[e|response] w'] eqn:Hb.
  - split.
    + right. exists e, w'. split; [done|]. split; [done|].
      by rewrite post_generate_eq, Hg.
    + intros response w''. rewrite Hg. discriminate.
  - split.
    + left. exists response, w'. split; [done|]. split; [done|].
      split; [by eapply Hst|]. split; [by rewrite post_generate_eq, Hg|].
      unfold response_body. rewrite !lookup_insert_ne by done.
      rewrite lookup_insert_eq. f_equal. by eapply Hst.
    + intros response' w''. rewrite Hg. intros [= <- <-]. by eapply Hst.
Qed.

(** C5, as the code has it. A request with a recognized length gets a
    response exactly when the model answers the research, the writer and the
    reviewer call in turn; the response then has the topic of the request,
    the status success, and as research, draft and final blog the three
    answers of the model as they came, so each is empty exactly when the
    answer of the model was. *)
Theorem valid_request_response_carries_model_texts
    (request : BlogRequest.t) (w : World) (response : BlogResponse.t) (w' : World) :
  BlogRequest.length request ∈ ["short"; "medium"; "long"] ->
  generate_blog request w = (inr response, w') <->
  exists words research draft final_blog p1 p2 p3,
    word_count !! BlogRequest.length request = Some words /\
    p1 = [HumanMessage (research_prompt (BlogRequest.topic request)
            (BlogRequest.tone request) (BlogRequest.length request))] /\
    p2 = [HumanMessage (writer_prompt research (BlogRequest.topic request)
            (BlogRequest.tone request) words)] /\
    p3 = [HumanMessage (reviewer_prompt draft (BlogRequest.tone request))] /\
    provider llm w p1 = inr research /\
    provider llm (w ++ [p1]) p2 = inr draft /\
    provider llm (w ++ [p1; p2]) p3 = inr final_blog /\
    response =
      {| BlogResponse.topic := BlogRequest.topic request;
         BlogResponse.research := research;
         BlogResponse.draft := draft;
         BlogResponse.final_blog := final_blog;
         BlogResponse.status := "success" |} /\
    w' = w ++ [p1; p2; p3].
Proof.
  intros Hlen. apply word_count_recognized in Hlen as [words Hwc].
  unfold generate_blog. rewrite generate_blog_with_eq, invoke_blog_chain.
  unfold bind at 1. rewrite research_agent_on_request. cbv zeta.
  set (p1 := [HumanMessage (research_prompt _ _ _)]).
  destruct (provider llm w p1) as [e1|research] eqn:H1.
  { split; [discriminate|]. intros (? & ? & ? & ? & ? & ? & ? & _ & -> & _ & _ & Hp & _).
    subst p1. rewrite H1 in Hp. discriminate. }
  unfold bind at 1. rewrite writer_agent_eq.
  rewrite lookup_insert_eq, !lookup_insert_ne by done.
  rewrite request_inputs_topic, request_inputs_tone, request_inputs_length, Hwc.
  cbv zeta. set (p2 := [HumanMessage (writer_prompt _ _ _ _)]).
  destruct (provider llm (w ++ [p1]) p2) as [e2|draft] eqn:H2.
  { split; [discriminate|].
    intros (? & r & ? & ? & ? & ? & ? & Hwc' & -> & -> & _ & Hp1 & Hp2 & _).
    subst p1 p2. rewrite H1 in Hp1. injection Hp1 as <-.
    injection Hwc' as <-. rewrite H2 in Hp2. discriminate. }
  unfold bind at 1. rewrite reviewer_agent_eq.
  rewrite lookup_insert_eq, !lookup_insert_ne by done.
  rewrite request_inputs_tone. cbv zeta.
  set (p3 := [HumanMessage (reviewer_prompt _ _)]).
  rewrite <- !app_assoc. simpl.
  destruct (provider llm (w ++ [p1; p2]) p3) as [e3|final_blog] eqn:H3.
  { split; [discriminate|].
    intros (? & r & d & ? & ? & ? & ? & Hwc' & -> & -> & -> & Hp1 & Hp2 & Hp3 & _).
    subst p1 p2 p3. rewrite H1 in Hp1. injection Hp1 as <-.
    injection Hwc' as <-.
    rewrite H2 in Hp2. injection Hp2 as <-. rewrite H3 in Hp3. discriminate. }
  assert (Hresp : success_response request
      (<["final_blog" := final_blog]>
         (<["draft" := draft]> (<["research" := research]> (request_inputs request)))) =
      {| BlogResponse.topic := BlogRequest.topic request;
         BlogResponse.research := research;
         BlogResponse.draft := draft;
         BlogResponse.final_blog := final_blog;
         BlogResponse.status := "success" |}).
  { unfold success_response, dict_get. by simplify_map_eq. }
  unfold ret. rewrite Hresp. split.
  - intros [= <- <-]. by exists words, research, draft, final_blog, p1, p2, p3.
  - intros (? & r & d & f & ? & ? & ? & Hwc' & -> & -> & -> & Hp1 & Hp2 & Hp3 & -> & ->).
    subst p1 p2 p3. rewrite H1 in Hp1. injection Hp1 as <-.
    injection Hwc' as <-.
    rewrite H2 in Hp2. injection Hp2 as <-.
    rewrite H3 in Hp3. injection Hp3 as <-. reflexivity.
Qed.

(** C6. When the handler fails, what is sent is the code 500 and a body
    with the single field [detail], the text of the exception raised in the
    [try] block: the body has no [research] and no [draft] field. This is
    so too when the research stage had returned its text, after a model
    call that is in the log, before a later stage raised. *)
Theorem failure_returns_detail_only
    (request : BlogRequest.t) (w : World) (e : HTTPException) (w' : World) :
  generate_blog request w = (inl e, w') ->
  status_code e = 500%Z /\
  (exists exc,
     generate_blog_try blog_chain request w = (inl exc, w') /\
     detail e = str_exn exc) /\
  post_generate request w =
    ({| code := 500; body := <["detail" := detail e]> ∅ |}, w') /\
  dom (body (post_generate request w).1) = {["detail"]} /\
  body (post_generate request w).1 !! "research" = None /\
  body (post_generate request w).1 !! "draft" = None /\
  (forall s1 w1,
     research_agent (request_inputs request) w = (inr s1, w1) ->
     exists research p1,
       s1 !! "research" = Some research /\ w1 = w ++ [p1] /\
       (exists later, w' = w1 ++ later) /\
       body (post_generate request w).1 = <["detail" := detail e]> ∅).
Proof.
  intros Hfail.
  assert (Hg : generate_blog request w =
    try_except (generate_blog_try blog_chain request)
      (fun e => raise {| status_code := 500; detail := str_exn e |}) w)
    by reflexivity.
  unfold try_except, raise in Hg.
  destruct (generate_blog_try blog_chain request w) as [[exc|response] w0] eqn:Hb;
    rewrite Hfail in Hg; [|discriminate].
  injection Hg as -> ->. simpl.
  assert (Hpost : post_generate request w =
    ({| code := 500; body := <["detail" := str_exn exc]> ∅ |}, w0))
    by (by rewrite post_generate_eq, Hfail).
  rewrite Hpost. simpl.
  split; [done|]. split; [by exists exc|]. split; [done|].
  split; [by rewrite dom_insert_L, dom_empty_L, union_empty_r_L|].
  split; [by rewrite lookup_insert_ne|]. split; [by rewrite lookup_insert_ne|].
  intros s1 w1 H1. pose proof H1 as H1'.
  apply research_agent_returns in H1'
    as (tp & tn & ln & r & _ & _ & _ & _ & -> & ->).
  exists r, [HumanMessage (research_prompt tp tn ln)].
  split; [by rewrite lookup_insert_eq|]. split; [done|]. split; [|done].
  unfold generate_blog_try in Hb. rewrite invoke_blog_chain in Hb.
  apply bind_raises in Hb as [Hb | (? & ? & _ & [=])].
  apply bind_raises in Hb as [Hb | (s1' & w1' & H1'' & Hb)];
    [by rewrite H1 in Hb|].
  rewrite H1 in H1''. injection H1'' as <- <-.
  apply bind_raises in Hb as [H2 | (s2 & w2 & H2 & Hb)].
  - by apply writer_agent_log in H2.
  - apply writer_agent_log in H2 as [l1 ->].
    apply bind_raises in Hb as [H3 | (? & ? & _ & [=])].
    apply reviewer_agent_log in H3 as [l2 ->].
    exists (l1 ++ l2). by rewrite app_assoc.
Qed.

(** C9. A body with only a topic is accepted, with the tone professional
    and the length medium. More generally, in a body that has a topic, a
    missing tone stands for professional and a missing length for medium:
    the request built, and with it the answer of [/generate], is that of
    the body with the field written out. *)
Theorem omitted_tone_and_length_default
    (fields : gmap string string) (topic : string) (w : World) :
  fields !! "topic" = Some topic ->
  BlogRequest.validate (<["topic" := topic]> ∅) =
    Some {| BlogRequest.topic := topic;
            BlogRequest.tone := "professional";
            BlogRequest.length := "medium" |} /\
  (fields !! "tone" = None ->
     BlogRequest.validate fields =
       BlogRequest.validate (<["tone" := "professional"]> fields) /\
     post_generate_body fields w =
       post_generate_body (<["tone" := "professional"]> fields) w) /\
  (fields !! "length" = None ->
     BlogRequest.validate fields =
       BlogRequest.validate (<["length" := "medium"]> fields) /\
     post_generate_body fields w =
       post_generate_body (<["length" := "medium"]> fields) w) /\
  (fields !! "tone" = None -> fields !! "length" = None ->
     BlogRequest.validate fields =
       Some {| BlogRequest.topic := topic;
               BlogRequest.tone := "professional";
               BlogRequest.length := "medium" |} /\
     post_generate_body fields w =
       post_generate {| BlogRequest.topic := topic;
                        BlogRequest.tone := "professional";
                        BlogRequest.length := "medium" |} w).
Proof.
  intros Htopic. split; [|split; [|split]].
  - unfold BlogRequest.validate. by simplify_map_eq.
  - intros Htone.
    assert (Hv : BlogRequest.validate fields =
      BlogRequest.validate (<["tone" := "professional"]> fields)).
    { unfold BlogRequest.validate.
      rewrite lookup_insert_eq, !lookup_insert_ne by done.
      by rewrite Htopic, Htone. }
    split; [exact Hv|]. unfold post_generate_body. by rewrite Hv.
  - intros Hlength.
    assert (Hv : BlogRequest.validate fields =
      BlogRequest.validate (<["length" := "medium"]> fields)).
    { unfold BlogRequest.validate.
      rewrite lookup_insert_eq, !lookup_insert_ne by done.
      by rewrite Htopic, Hlength. }
    split; [exact Hv|]. unfold post_generate_body. by rewrite Hv.
  - intros Htone Hlength.
    assert (Hv : BlogRequest.validate fields =
      Some {| BlogRequest.topic := topic;
              BlogRequest.tone := "professional";
              BlogRequest.length := "medium" |}).
    { unfold BlogRequest.validate. by rewrite Htopic, Htone, Hlength. }
    split; [exact Hv|]. unfold post_generate_body. by rewrite Hv.
Qed.

(** A state the chain returns has the three texts: the defaults of
    [success_response] never show on a run of [blog_chain] itself. *)
Lemma blog_chain_final_state_keys inputs w final_state w' :
  invoke blog_chain inputs w = (inr final_state, w') ->
  is_Some (final_state !! "research") /\ is_Some (final_state !! "draft") /\
  is_Some (final_state !! "final_blog").
Proof.
  rewrite invoke_blog_chain. intros Hrun.
  apply bind_returns in Hrun as (s1 & w1 & H1 & Hrun).
  apply bind_returns in Hrun as (s2 & w2 & H2 & Hrun).
  apply bind_returns in Hrun as (s3 & w3 & H3 & [= -> ->]).
  apply research_agent_returns in H1
    as (? & ? & ? & r & _ & _ & _ & _ & -> & _).
  apply writer_agent_returns in H2
    as (? & ? & ? & ? & ? & d & _ & _ & _ & _ & _ & _ & -> & _).
  apply reviewer_agent_returns in H3 as (? & ? & f & _ & _ & _ & -> & _).
  rewrite lookup_insert_eq, !lookup_insert_ne, !lookup_insert_eq by done.
  rewrite lookup_insert_ne, lookup_insert_eq by done. by eauto.
Qed.

(** C10. The response is built with [get] and the default of the empty
    string: whatever final state the chain returns, the handler returns a
    response of status success, sent with code 200, in which a field whose
    key the final state lacks is the empty string. A chain of no stage is
    such a case: the three fields are empty and the status is success. *)
Theorem success_response_defaults_missing_fields
    (chain : RunnableSequence) (request : BlogRequest.t) (w : World)
    (final_state : gmap string string) (w' : World) :
  invoke chain (request_inputs request) w = (inr final_state, w') ->
  generate_blog_with chain request w =
    (inr (success_response request final_state), w') /\
  send response_body (generate_blog_with chain request w).1 =
    {| code := 200;
       body := response_body (success_response request final_state) |} /\
  BlogResponse.status (success_response request final_state) = "success" /\
  (final_state !! "research" = None ->
     BlogResponse.research (success_response request final_state) = EmptyString) /\
  (final_state !! "draft" = None ->
     BlogResponse.draft (success_response request final_state) = EmptyString) /\
  (final_state !! "final_blog" = None ->
     BlogResponse.final_blog (success_response request final_state) = EmptyString) /\
  generate_blog_with [] request w =
    (inr {| BlogResponse.topic := BlogRequest.topic request;
            BlogResponse.research := EmptyString;
            BlogResponse.draft := EmptyString;
            BlogResponse.final_blog := EmptyString;
            BlogResponse.status := "success" |}, w).
Proof.
  intros Hrun.
  assert (Hg : generate_blog_with chain request w =
    (inr (success_response request final_state), w'))
    by (by rewrite generate_blog_with_eq, Hrun).
  split; [exact Hg|]. split; [by rewrite Hg|]. split; [done|].
  unfold success_response, dict_get; simpl.
  split; [by intros ->|]. split; [by intros ->|]. split; [by intros ->|].
  rewrite generate_blog_with_eq. simpl. unfold ret, success_response, dict_get.
  unfold request_inputs. by simplify_map_eq.
Qed.

(** C7. [/health] answers 200 with the status healthy and the version
    3.0.0 on every call: whatever client the module was started with,
    whatever the provider does with its key, whatever calls were made
    before. It reads nothing of a request and makes no model call. *)
Theorem health_always_healthy (app : App) (w : World) :
  health_check w =
    (inr (<["status" := "healthy"]> (<["version" := "3.0.0"]> ∅)), w) /\
  serve repr provider app GET_health w =
    ({| code := 200;
        body := <["status" := "healthy"]> (<["version" := "3.0.0"]> ∅) |}, w) /\
  body (serve repr provider app GET_health w).1 !! "status" = Some "healthy" /\
  body (serve repr provider app GET_health w).1 !! "version" = Some "3.0.0" /\
  dom (body (serve repr provider app GET_health w).1) = {["status"; "version"]}.
Proof.
  split; [reflexivity|]. split; [reflexivity|]. simpl.
  split; [by rewrite lookup_insert_eq|].
  split; [by rewrite lookup_insert_ne, lookup_insert_eq|].
  rewrite !dom_insert_L, dom_empty_L. set_solver.
Qed.

(** C8. Without the variable [OPENAI_API_KEY], in the process environment
    and in the [.env] file, [get_llm] raises the [ValueError], the import of
    the module raises it too, and no request is served. When the module is
    imported, the key of the client is the value the variable had then, and
    the routes that are served are those of that client. *)
Theorem missing_key_fails_startup (dotenv environ : gmap string string) :
  environ !! OPENAI_API_KEY = None ->
  dotenv !! OPENAI_API_KEY = None ->
  get_llm (load_dotenv dotenv environ) =
    inl (ValueError "OPENAI_API_KEY not found in environment variables") /\
  module_init dotenv environ =
    inl (ValueError "OPENAI_API_KEY not found in environment variables") /\
  start repr provider dotenv environ =
    inl (ValueError "OPENAI_API_KEY not found in environment variables") /\
  (forall env,
     env !! OPENAI_API_KEY = None ->
     get_llm env =
       inl (ValueError "OPENAI_API_KEY not found in environment variables")) /\
  (forall dotenv' environ' handler,
     start repr provider dotenv' environ' = inr handler ->
     exists app key,
       module_init dotenv' environ' = inr app /\
       load_dotenv dotenv' environ' !! OPENAI_API_KEY = Some key /\
       api_key (llm_of app) = key /\
       handler = serve repr provider app).
Proof.
  intros Henv Hfile.
  assert (Hget : forall env, env !! OPENAI_API_KEY = None ->
    get_llm env =
      inl (ValueError "OPENAI_API_KEY not found in environment variables")).
  { intros env Hnone. unfold get_llm, getenv. by rewrite Hnone. }
  assert (Hload : load_dotenv dotenv environ !! OPENAI_API_KEY = None).
  { unfold load_dotenv. apply lookup_union_None. by split. }
  assert (Hinit : module_init dotenv environ =
    inl (ValueError "OPENAI_API_KEY not found in environment variables")).
  { unfold module_init. by rewrite (Hget _ Hload). }
  split; [by apply Hget|]. split; [exact Hinit|].
  split; [unfold start; by rewrite Hinit|]. split; [exact Hget|].
  intros dotenv' environ' handler. unfold start, module_init, get_llm, getenv.
  destruct (load_dotenv dotenv' environ' !! OPENAI_API_KEY) as [key|] eqn:Hkey;
    simpl; [|discriminate].
  destruct (String.eqb key EmptyString); simpl; [discriminate|].
  intros [= <-]. by eexists _, key.
Qed.

(** *** Further properties of the agents and the handler *)

Ltac one_call_cases :=
  cbv zeta; intros; repeat case_match; simplify_eq;
  first [ by (exists []; rewrite app_nil_r; split; [done | simpl; lia])
        | by (eexists [_]; split; [done | simpl; lia]) ].

Lemma research_agent_one_call inputs w o w' :
  research_agent inputs w = (o, w') -> one_call w o w'.
Proof. rewrite research_agent_eq. unfold one_call. one_call_cases. Qed.

Lemma writer_agent_one_call inputs w o w' :
  writer_agent inputs w = (o, w') -> one_call w o w'.
Proof. rewrite writer_agent_eq. unfold one_call. one_call_cases. Qed.

Lemma reviewer_agent_one_call inputs w o w' :
  reviewer_agent inputs w = (o, w') -> one_call w o w'.
Proof. rewrite reviewer_agent_eq. unfold one_call. one_call_cases. Qed.

Lemma generate_blog_log request w o w' :
  generate_blog request w = (o, w') ->
  exists later,
    w' = w ++ later /\ (1 <= List.length later <= 3)%nat /\
    match o with inr _ => List.length later = 3 | inl _ => True end.
Proof.
  unfold generate_blog.
  rewrite generate_blog_with_eq, invoke_blog_chain. unfold bind at 1.
  rewrite research_agent_on_request. cbv zeta.
  set (p1 := [HumanMessage (research_prompt _ _ _)]).
  destruct (provider llm w p1) as [e1|research].
  { intros [= <- <-]. exists [p1]. simpl. repeat split; lia. }
  unfold bind at 1.
  destruct (writer_agent _ (w ++ [p1])) as [[e2|s2] w2] eqn:H2;
    apply writer_agent_one_call in H2 as (l2 & -> & Hl2).
  { intros [= <- <-]. exists (p1 :: l2). rewrite <- app_assoc. simpl in *.
    repeat split; lia. }
  unfold bind at 1.
  destruct (reviewer_agent s2 _) as [[e3|s3] w3] eqn:H3;
    apply reviewer_agent_one_call in H3 as (l3 & -> & Hl3);
    intros [= <- <-]; exists (p1 :: l2 ++ l3); rewrite <- !app_assoc;
    simpl in *; rewrite length_app; repeat split; lia.
Qed.

(** X1. A request to the handler costs at least one and at most three
    model calls, appended to the log, whose earlier entries stay; a request
    that gets a response has cost exactly three. *)
Theorem generate_blog_model_calls (request : BlogRequest.t) (w : World) :
  exists later,
    (generate_blog request w).2 = w ++ later /\
    (post_generate request w).2 = w ++ later /\
    (1 <= List.length later <= 3)%nat /\
    (forall response w',
       generate_blog request w = (inr response, w') -> List.length later = 3).
Proof.
  rewrite post_generate_eq.
  destruct (generate_blog request w) as [o w'] eqn:Hg.
  apply generate_blog_log in Hg as (later & -> & Hlen & Hok).
  exists later. split; [done|]. split; [by destruct o|]. split; [done|].
  by intros response w'' [= -> _].
Qed.

(** X2. A request with an unrecognized length costs exactly one model
    call, the research call, whether the model answers it or not, and is
    answered 500. *)
Theorem unknown_length_costs_one_call (request : BlogRequest.t) (w : World) :
  BlogRequest.length request ∉ ["short"; "medium"; "long"] ->
  (post_generate request w).2 =
    w ++ [[HumanMessage (research_prompt (BlogRequest.topic request)
             (BlogRequest.tone request) (BlogRequest.length request))]] /\
  code (post_generate request w).1 = 500%Z.
Proof.
  intros Hlen. apply word_count_unknown in Hlen.
  rewrite post_generate_eq, (generate_blog_unknown_length request w Hlen).
  cbv zeta. by destruct (provider llm w _).
Qed.

(** X3. The research agent needs [topic], [tone] and [length]: on a state
    that lacks one it raises the [KeyError] of the first one missing, in
    that order, and calls no model; on a state that has the three it makes
    exactly one call, with the research prompt of their values. *)
Theorem research_agent_missing_key (inputs : gmap string string) (w : World) :
  (inputs !! "topic" = None ->
     research_agent inputs w = (inl (KeyError "topic"), w)) /\
  (is_Some (inputs !! "topic") -> inputs !! "tone" = None ->
     research_agent inputs w = (inl (KeyError "tone"), w)) /\
  (is_Some (inputs !! "topic") -> is_Some (inputs !! "tone") ->
     inputs !! "length" = None ->
     research_agent inputs w = (inl (KeyError "length"), w)) /\
  (forall topic tone length,
     inputs !! "topic" = Some topic -> inputs !! "tone" = Some tone ->
     inputs !! "length" = Some length ->
     (research_agent inputs w).2 =
       w ++ [[HumanMessage (research_prompt topic tone length)]]).
Proof.
  rewrite research_agent_eq. repeat split.
  - by intros ->.
  - by intros [? ->] ->.
  - by intros [? ->] [? ->] ->.
  - intros tp tn ln -> -> ->. cbv zeta. by destruct (provider llm w _).
Qed.

(** X4. The writer reads [research], [topic], [tone] and [length] in that
    order, and only then looks the length up in [word_count]: a state that
    lacks one of the four raises the [KeyError] of the first one missing,
    whatever its length is, and no model call is made on any of these
    errors. *)
Theorem writer_agent_missing_key (inputs : gmap string string) (w : World) :
  (inputs !! "research" = None ->
     writer_agent inputs w = (inl (KeyError "research"), w)) /\
  (is_Some (inputs !! "research") -> inputs !! "topic" = None ->
     writer_agent inputs w = (inl (KeyError "topic"), w)) /\
  (is_Some (inputs !! "research") -> is_Some (inputs !! "topic") ->
     inputs !! "tone" = None ->
     writer_agent inputs w = (inl (KeyError "tone"), w)) /\
  (is_Some (inputs !! "research") -> is_Some (inputs !! "topic") ->
     is_Some (inputs !! "tone") -> inputs !! "length" = None ->
     writer_agent inputs w = (inl (KeyError "length"), w)) /\
  (forall length,
     is_Some (inputs !! "research") -> is_Some (inputs !! "topic") ->
     is_Some (inputs !! "tone") -> inputs !! "length" = Some length ->
     length ∉ ["short"; "medium"; "long"] ->
     writer_agent inputs w = (inl (KeyError length), w)).
Proof.
  rewrite writer_agent_eq. repeat split.
  - by intros ->.
  - by intros [? ->] ->.
  - by intros [? ->] [? ->] ->.
  - by intros [? ->] [? ->] [? ->] ->.
  - intros ln [? ->] [? ->] [? ->] -> Hln.
    assert (Hwc : word_count !! ln = None).
    { apply eq_None_not_Some. by rewrite <- word_count_recognized. }
    by rewrite Hwc.
Qed.

(** X5. The reviewer reads [draft] and [tone] and nothing else. Without a
    draft it raises [KeyError] and calls no model. On two states that agree
    on the draft and the tone, whatever else they hold or lack, it sends
    the same prompt and ends the same way: the same exception, or the same
    text under [final_blog]. *)
Theorem reviewer_agent_reads_draft_and_tone
    (inputs1 inputs2 : gmap string string) (w : World) :
  (inputs1 !! "draft" = None ->
     reviewer_agent inputs1 w = (inl (KeyError "draft"), w)) /\
  (inputs1 !! "draft" = inputs2 !! "draft" ->
   inputs1 !! "tone" = inputs2 !! "tone" ->
   (reviewer_agent inputs1 w).2 = (reviewer_agent inputs2 w).2 /\
   match (reviewer_agent inputs1 w).1, (reviewer_agent inputs2 w).1 with
   | inr out1, inr out2 =>
       out1 !! "final_blog" = out2 !! "final_blog" /\
       is_Some (out1 !! "final_blog")
   | inl e1, inl e2 => e1 = e2
   | _, _ => False
   end).
Proof.
  rewrite !reviewer_agent_eq. split; [by intros ->|].
  intros <- <-.
  destruct (inputs1 !! "draft"), (inputs1 !! "tone"); try done.
  cbv zeta. destruct (provider llm w _); simpl; [done|].
  rewrite !lookup_insert_eq. by eauto.
Qed.

(** *** The chain operator *)

(** X6. Running the chain [a | b] is running [a] and then [b] on the state
    [a] returned; when [a] raises, [b] is not run. *)
Theorem invoke_pipe (a b : RunnableSequence) (input : gmap string string) (w : World) :
  invoke (pipe a b) input w = (let! output := invoke a input in invoke b output) w /\
  (forall e w', invoke a input w = (inl e, w') ->
     invoke (pipe a b) input w = (inl e, w')) /\
  (forall output w', invoke a input w = (inr output, w') ->
     invoke (pipe a b) input w = invoke b output w').
Proof.
  assert (Heq : forall input w,
    invoke (pipe a b) input w =
      (let! output := invoke a input in invoke b output) w).
  { unfold pipe. induction a as [|step rest IH]; intros input0 w0; simpl.
    - reflexivity.
    - unfold bind. destruct (step input0 w0) as [[e|output] w1]; [done|].
      by rewrite IH. }
  split; [apply Heq|]. split.
  - intros e w' Ha. rewrite Heq. unfold bind. by rewrite Ha.
  - intros output w' Ha. rewrite Heq. unfold bind. by rewrite Ha.
Qed.

(** *** Start-up *)

(** X7. [get_llm] returns a client exactly when the variable is set to a
    non-empty value, and the client then has that key and the model
    gpt-4o-mini; a variable set to the empty string raises the same
    [ValueError] as a missing one. *)
Theorem get_llm_needs_a_non_empty_key (environ : gmap string string) :
  (forall client,
     get_llm environ = inr client <->
     exists key,
       environ !! OPENAI_API_KEY = Some key /\ key <> EmptyString /\
       client = {| model := "gpt-4o-mini"; temperature := 7 # 10;
                   api_key := key |}) /\
  (environ !! OPENAI_API_KEY = Some EmptyString ->
     get_llm environ =
       inl (ValueError "OPENAI_API_KEY not found in environment variables")) /\
  (forall e,
     get_llm environ = inl e ->
     e = ValueError "OPENAI_API_KEY not found in environment variables").
Proof.
  unfold get_llm, getenv. split; [|split].
  - intros client.
    destruct (environ !! OPENAI_API_KEY) as [key|]; simpl.
    + destruct (String.eqb_spec key EmptyString) as [-> | Hne]; simpl.
      * split; [discriminate|]. by intros (key & [= <-] & Hne & _).
      * split.
        -- intros [= <-]. by exists key.
        -- by intros (key' & [= <-] & _ & ->).
    + split; [discriminate|]. by intros (key & [=] & _).
  - by intros ->.
  - destruct (environ !! OPENAI_API_KEY) as [key|]; simpl;
      [destruct (String.eqb key EmptyString); simpl|]; by intros e [= <-].
Qed.

(** X8. The process environment comes before the [.env] file. A key set in
    the environment is the key of the client, whatever the file holds; a
    key set to the empty string there stops the start-up even when the file
    holds a key; the key of the file is used when the environment has
    none. *)
Theorem environment_comes_before_dotenv (dotenv environ : gmap string string) :
  (forall key,
     environ !! OPENAI_API_KEY = Some key -> key <> EmptyString ->
     module_init dotenv environ =
       inr {| llm_of := {| model := "gpt-4o-mini"; temperature := 7 # 10;
                           api_key := key |} |}) /\
  (environ !! OPENAI_API_KEY = Some EmptyString ->
     module_init dotenv environ =
       inl (ValueError "OPENAI_API_KEY not found in environment variables")) /\
  (forall key,
     environ !! OPENAI_API_KEY = None ->
     dotenv !! OPENAI_API_KEY = Some key -> key <> EmptyString ->
     module_init dotenv environ =
       inr {| llm_of := {| model := "gpt-4o-mini"; temperature := 7 # 10;
                           api_key := key |} |}).
Proof.
  unfold module_init, get_llm, getenv, load_dotenv. split; [|split].
  - intros key Henv Hne. rewrite (lookup_union_Some_l _ _ _ _ Henv). simpl.
    by destruct (String.eqb_spec key EmptyString).
  - intros Henv. by rewrite (lookup_union_Some_l _ _ _ _ Henv).
  - intros key Henv Hfile Hne. rewrite lookup_union_r by done.
    rewrite Hfile. simpl. by destruct (String.eqb_spec key EmptyString).
Qed.

(** *** The body of a request *)

Lemma str_field_Some (v : json) (s : string) :
  str_field v = Some s <-> v = JString s.
Proof. destruct v; simpl; split; intros H; by simplify_eq. Qed.

Lemma str_field_None (v : json) :
  str_field v = None <-> forall s, v <> JString s.
Proof.
  split.
  - intros Hnone s ->. discriminate.
  - intros Hne. destruct v; try done. by destruct (Hne s).
Qed.

Lemma post_generate_codes request w :
  code (post_generate request w).1 = 200%Z \/
  code (post_generate request w).1 = 500%Z.
Proof.
  rewrite post_generate_eq. unfold generate_blog.
  rewrite generate_blog_with_eq.
  destruct (invoke blog_chain (request_inputs request) w) as [[e|final] w'];
    simpl; by eauto.
Qed.

(** X9. [POST /generate] on a JSON object is answered 422 exactly when the
    model class refuses the body: the topic is missing or is not a string,
    or a tone or a length is given that is not a string ([null] and numbers
    included). No model call is made then. A body that is accepted is
    answered as its request is, with 200 or 500; on a body of strings the
    answer is that of [post_generate_body]. *)
Theorem post_generate_json_codes (fields : gmap string json) (w : World) :
  ((exists field, validate_json fields = inl field) <->
   (forall s, fields !! "topic" <> Some (JString s)) \/
   (exists v, fields !! "tone" = Some v /\ forall s, v <> JString s) \/
   (exists v, fields !! "length" = Some v /\ forall s, v <> JString s)) /\
  (code (post_generate_json repr provider llm fields w).1 = 422%Z <->
   exists field, validate_json fields = inl field) /\
  (forall field,
     validate_json fields = inl field ->
     post_generate_json repr provider llm fields w =
       ({| code := 422; body := <["detail" := field]> ∅ |}, w)) /\
  (forall request,
     validate_json fields = inr request ->
     post_generate_json repr provider llm fields w = post_generate request w /\
     (code (post_generate request w).1 = 200%Z \/
      code (post_generate request w).1 = 500%Z)) /\
  (forall strings : gmap string string,
     post_generate_json repr provider llm (JString <$> strings) w =
       post_generate_body strings w).
Proof.
  split; [|split; [|split; [|split]]].
  - unfold validate_json. split.
    + intros [field Hfield].
      destruct (fields !! "topic") as [vt|] eqn:Htopic; simpl in Hfield;
        [|by left].
      destruct (str_field vt) as [tp|] eqn:Hvt;
        [|left; intros s [= ->]; discriminate].
      destruct (fields !! "tone") as [vn|] eqn:Htone; simpl in Hfield.
      * destruct (str_field vn) as [tn|] eqn:Hvn;
          [|right; left; exists vn; split; [done|by apply str_field_None]].
        destruct (fields !! "length") as [vl|] eqn:Hlength; simpl in Hfield;
          [|discriminate].
        destruct (str_field vl) as [ln|] eqn:Hvl; [discriminate|].
        right; right. exists vl. split; [done|by apply str_field_None].
      * destruct (fields !! "length") as [vl|] eqn:Hlength; simpl in Hfield;
          [|discriminate].
        destruct (str_field vl) as [ln|] eqn:Hvl; [discriminate|].
        right; right. exists vl. split; [done|by apply str_field_None].
    + intros [Htopic | [(v & Htone & Hv) | (v & Hlength & Hv)]].
      * destruct (fields !! "topic") as [vt|]; simpl; [|by eauto].
        destruct (str_field vt) as [tp|] eqn:Hvt; [|by eauto].
        apply str_field_Some in Hvt as ->. by destruct (Htopic tp).
      * apply str_field_None in Hv. rewrite Htone. simpl. rewrite Hv.
        destruct (fields !! "topic" ≫= str_field); by eauto.
      * apply str_field_None in Hv. rewrite Hlength. simpl. rewrite Hv.
        destruct (fields !! "topic" ≫= str_field); [|by eauto].
        destruct (str_field_or _ (fields !! "tone")); by eauto.
  - unfold post_generate_json.
    destruct (validate_json fields) as [field|request]; simpl.
    + split; by eauto.
    + split; [|by intros [? [=]]].
      intros H422. destruct (post_generate_codes request w) as [H|H];
        rewrite H in H422; discriminate.
  - intros field Hfield. unfold post_generate_json. by rewrite Hfield.
  - intros request Hrequest. unfold post_generate_json. rewrite Hrequest.
    split; [done|apply post_generate_codes].
  - intros strings. unfold post_generate_json, post_generate_body.
    unfold validate_json, BlogRequest.validate. rewrite !lookup_fmap.
    destruct (strings !! "topic"); simpl; [|done].
    by destruct (strings !! "tone"), (strings !! "length").
Qed.


(** *** Stages run again, and provider failures *)

(** X11. A stage run on a state that already holds its key, and on which
    it returns, puts the reply of the model in the place of the old value:
    the state returned is the input with that key set to the reply, and has
    the same keys, and as many, as the input. The prompt is built from the
    keys the stage reads, not from the old value. *)
Theorem stage_overwrites_its_own_key (inputs : gmap string string) (w : World) :
  (forall old topic tone length reply,
     inputs !! "research" = Some old ->
     inputs !! "topic" = Some topic -> inputs !! "tone" = Some tone ->
     inputs !! "length" = Some length ->
     provider llm w [HumanMessage (research_prompt topic tone length)]
       = inr reply ->
     research_agent inputs w =
       (inr (<["research" := reply]> inputs),
        w ++ [[HumanMessage (research_prompt topic tone length)]]) /\
     (<["research" := reply]> inputs) !! "research" = Some reply /\
     dom (<["research" := reply]> inputs) = dom inputs /\
     size (<["research" := reply]> inputs) = size inputs) /\
  (forall old research topic tone length words reply,
     inputs !! "draft" = Some old ->
     inputs !! "research" = Some research ->
     inputs !! "topic" = Some topic -> inputs !! "tone" = Some tone ->
     inputs !! "length" = Some length -> word_count !! length = Some words ->
     provider llm w [HumanMessage (writer_prompt research topic tone words)]
       = inr reply ->
     writer_agent inputs w =
       (inr (<["draft" := reply]> inputs),
        w ++ [[HumanMessage (writer_prompt research topic tone words)]]) /\
     (<["draft" := reply]> inputs) !! "draft" = Some reply /\
     dom (<["draft" := reply]> inputs) = dom inputs /\
     size (<["draft" := reply]> inputs) = size inputs) /\
  (forall old draft tone reply,
     inputs !! "final_blog" = Some old ->
     inputs !! "draft" = Some draft -> inputs !! "tone" = Some tone ->
     provider llm w [HumanMessage (reviewer_prompt draft tone)] = inr reply ->
     reviewer_agent inputs w =
       (inr (<["final_blog" := reply]> inputs),
        w ++ [[HumanMessage (reviewer_prompt draft tone)]]) /\
     (<["final_blog" := reply]> inputs) !! "final_blog" = Some reply /\
     dom (<["final_blog" := reply]> inputs) = dom inputs /\
     size (<["final_blog" := reply]> inputs) = size inputs).
Proof.
  split; [|split].
  - intros old tp tn ln reply Hold Htp Htn Hln Hp.
    split; [apply research_agent_returns; by exists tp, tn, ln, reply|].
    split; [by rewrite lookup_insert_eq|]. by apply insert_over_present.
  - intros old rs tp tn ln wc reply Hold Hrs Htp Htn Hln Hwc Hp.
    split; [apply writer_agent_returns; by exists rs, tp, tn, ln, wc, reply|].
    split; [by rewrite lookup_insert_eq|]. by apply insert_over_present.
  - intros old dr tn reply Hold Hdr Htn Hp.
    split; [apply reviewer_agent_returns; by exists dr, tn, reply|].
    split; [by rewrite lookup_insert_eq|]. by apply insert_over_present.
Qed.

(** X12. When the provider fails, at whichever of the three calls, the
    request is answered 500 with the text of that failure as detail, and no
    later call is made. *)
Theorem provider_error_surfaces (request : BlogRequest.t) (w : World) :
  (forall e,
     provider llm w
       [HumanMessage (research_prompt (BlogRequest.topic request)
          (BlogRequest.tone request) (BlogRequest.length request))] = inl e ->
     post_generate request w =
       ({| code := 500; body := <["detail" := str_exn e]> ∅ |},
        w ++ [[HumanMessage (research_prompt (BlogRequest.topic request)
                 (BlogRequest.tone request) (BlogRequest.length request))]])) /\
  (forall research words p1 p2 e,
     p1 = [HumanMessage (research_prompt (BlogRequest.topic request)
             (BlogRequest.tone request) (BlogRequest.length request))] ->
     p2 = [HumanMessage (writer_prompt research (BlogRequest.topic request)
             (BlogRequest.tone request) words)] ->
     provider llm w p1 = inr research ->
     word_count !! BlogRequest.length request = Some words ->
     provider llm (w ++ [p1]) p2 = inl e ->
     post_generate request w =
       ({| code := 500; body := <["detail" := str_exn e]> ∅ |}, w ++ [p1; p2])) /\
  (forall research words draft p1 p2 p3 e,
     p1 = [HumanMessage (research_prompt (BlogRequest.topic request)
             (BlogRequest.tone request) (BlogRequest.length request))] ->
     p2 = [HumanMessage (writer_prompt research (BlogRequest.topic request)
             (BlogRequest.tone request) words)] ->
     p3 = [HumanMessage (reviewer_prompt draft (BlogRequest.tone request))] ->
     provider llm w p1 = inr research ->
     word_count !! BlogRequest.length request = Some words ->
     provider llm (w ++ [p1]) p2 = inr draft ->
     provider llm (w ++ [p1; p2]) p3 = inl e ->
     post_generate request w =
       ({| code := 500; body := <["detail" := str_exn e]> ∅ |},
        w ++ [p1; p2; p3])).
Proof.
  assert (Hwriter : forall research w1,
    writer_agent (<["research" := research]> (request_inputs request)) w1 =
      match word_count !! BlogRequest.length request with
      | None => (inl (KeyError (BlogRequest.length request)), w1)
      | Some words =>
          let p2 := [HumanMessage (writer_prompt research
                       (BlogRequest.topic request) (BlogRequest.tone request)
                       words)] in
          match provider llm w1 p2 with
          | inl e => (inl e, w1 ++ [p2])
          | inr draft =>
              (inr (<["draft" := draft]>
                      (<["research" := research]> (request_inputs request))),
               w1 ++ [p2])
          end
      end).
  { intros research w1. rewrite writer_agent_eq.
    rewrite lookup_insert_eq, !lookup_insert_ne by done.
    by rewrite request_inputs_topic, request_inputs_tone, request_inputs_length. }
  assert (Hreviewer : forall research draft w2,
    reviewer_agent
      (<["draft" := draft]> (<["research" := research]> (request_inputs request)))
      w2 =
      let p3 := [HumanMessage (reviewer_prompt draft (BlogRequest.tone request))] in
      match provider llm w2 p3 with
      | inl e => (inl e, w2 ++ [p3])
      | inr final_blog =>
          (inr (<["final_blog" := final_blog]>
                  (<["draft" := draft]>
                     (<["research" := research]> (request_inputs request)))),
           w2 ++ [p3])
      end).
  { intros research draft w2. rewrite reviewer_agent_eq.
    rewrite lookup_insert_eq, !lookup_insert_ne by done.
    by rewrite request_inputs_tone. }
  assert (Hpost : forall e w',
    invoke blog_chain (request_inputs request) w = (inl e, w') ->
    post_generate request w =
      ({| code := 500; body := <["detail" := str_exn e]> ∅ |}, w')).
  { intros e w' Hrun. rewrite post_generate_eq. unfold generate_blog.
    by rewrite generate_blog_with_eq, Hrun. }
  split; [|split].
  - intros e Hp. apply Hpost. rewrite invoke_blog_chain. unfold bind at 1.
    rewrite research_agent_on_request. cbv zeta. by rewrite Hp.
  - intros research words p1 p2 e -> -> Hp1 Hwc Hp2. apply Hpost.
    rewrite invoke_blog_chain. unfold bind at 1.
    rewrite research_agent_on_request. cbv zeta. rewrite Hp1.
    unfold bind at 1. rewrite Hwriter, Hwc. cbv zeta. rewrite Hp2.
    by rewrite <- app_assoc.
  - intros research words draft p1 p2 p3 e -> -> -> Hp1 Hwc Hp2 Hp3.
    apply Hpost. rewrite invoke_blog_chain. unfold bind at 1.
    rewrite research_agent_on_request. cbv zeta. rewrite Hp1.
    unfold bind at 1. rewrite Hwriter, Hwc. cbv zeta. rewrite Hp2.
    unfold bind at 1. rewrite Hreviewer. cbv zeta.
    rewrite <- !app_assoc. simpl. by rewrite Hp3.
Qed.

(** *** The test script *)

(** X13. The text [test_blog_generation] prints is never longer than 503
    code points: a text of at most 500 is printed whole, a longer one as
    its first 500 code points followed by the three dots. *)
Theorem preview_bounds (t : text) :
  (List.length (preview t) <= 503)%nat /\
  ((List.length t <= 500)%nat -> preview t = t) /\
  ((500 < List.length t)%nat ->
     List.length (preview t) = 503 /\
     take 500 (preview t) = take 500 t /\
     drop 500 (preview t) = dots).
Proof.
  unfold preview.
  destruct (Nat.ltb_spec 500 (List.length t)) as [Hlong | Hshort].
  - assert (Htake : List.length (take 500 t) = 500)
      by (apply length_take_le; lia).
    assert (Hlen : List.length (take 500 t ++ dots) = 503).
    { rewrite length_app, Htake. reflexivity. }
    split; [lia|]. split; [lia|]. intros _. split; [exact Hlen|].
    split; [by apply take_app_length' | by apply drop_app_length'].
  - split; [lia|]. split; [done|]. lia.
Qed.

(** X14. [test_health_check] lets no exception out: it returns true
    exactly when the request got a reply of status 200 whose body is JSON,
    and false on any other status, on a 200 whose body is not JSON and on a
    request that raised. It sends that one request. Run against this
    application it returns true, and no model call is made. *)
Theorem test_health_check_verdict
    (http : HttpRequest -> M script_exn Reply) (app : App) (w : World) :
  (exists verdict, (test_health_check http w).1 = inr verdict) /\
  ((test_health_check http w).1 = inr true <->
   exists reply,
     (http GET_health w).1 = inr reply /\ status reply = 200%Z /\
     is_Some (decoded reply)) /\
  (test_health_check http w).2 = (http GET_health w).2 /\
  test_health_check (via_app repr provider app) w = (inr true, w).
Proof.
  unfold test_health_check, try_except, response_json. unfold bind at 1 3 5.
  split; [|split; [|split]]; [| | |reflexivity].
  - destruct (http GET_health w) as [[e|reply] w']; simpl; [by eauto|].
    destruct (status reply =? 200)%Z; [|by eauto].
    destruct (decoded reply); by eauto.
  - destruct (http GET_health w) as [[e|reply] w']; simpl.
    + split; [discriminate | by intros (? & [=] & _)].
    + destruct (Z.eqb_spec (status reply) 200) as [Hstatus | Hstatus]; simpl.
      * destruct (decoded reply) as [value|] eqn:Hbody; simpl.
        -- split; [intros _; exists reply; by rewrite Hbody | done].
        -- split; [discriminate|].
           intros (? & [= <-] & _ & [? Hsome]). by rewrite Hbody in Hsome.
      * split; [discriminate | by intros (? & [= <-] & ? & _)].
  - destruct (http GET_health w) as [[e|reply] w']; simpl; [done|].
    destruct (status reply =? 200)%Z; [|done]. by destruct (decoded reply).
Qed.

Lemma test_blog_generation_eq (http : HttpRequest -> M script_exn Reply)
    (topic tone length : string) (w : World) :
  test_blog_generation http topic tone length w =
    match http (POST_generate
                  (<["topic" := topic]>
                     (<["tone" := tone]> (<["length" := length]> ∅)))) w with
    | (inl _, w') => (inr false, w')
    | (inr reply, w') =>
        (inr ((status reply =? 200)%Z && shows_three_texts reply), w')
    end.
Proof.
  unfold test_blog_generation, try_except. cbv zeta. unfold bind at 1.
  destruct (http _ w) as [[e|reply] w']; [done|].
  destruct (status reply =? 200)%Z; [|done]. simpl.
  unfold shows_three_texts, response_json, bind, subscript, print_preview,
    ret, raise.
  destruct (decoded reply) as [[| | | | |data]|]; try done.
  destruct (data !! "research") as [r|], (data !! "draft") as [d|],
    (data !! "final_blog") as [f|]; simpl;
    try destruct (previewable r); try destruct (previewable d);
    try destruct (previewable f); done.
Qed.

(** X15. [test_blog_generation] lets no exception out, and sends one
    request, with the topic, the tone and the length. It returns true
    exactly when the reply has status 200 and a body that decodes to a
    dictionary whose research, draft and final blog can each be previewed
    (a string, or a list or dictionary of at most 500 entries). Any other
    status, a body that is not JSON or not a dictionary, a text that is
    missing, [null], a boolean or a number, and a request that raised all
    give false. *)
Theorem test_blog_generation_verdict
    (http : HttpRequest -> M script_exn Reply) (topic tone length : string)
    (w : World) :
  (exists verdict,
     (test_blog_generation http topic tone length w).1 = inr verdict) /\
  ((test_blog_generation http topic tone length w).1 = inr true <->
   exists reply data research draft final_blog,
     (http (POST_generate
              (<["topic" := topic]>
                 (<["tone" := tone]> (<["length" := length]> ∅)))) w).1
       = inr reply /\
     status reply = 200%Z /\
     decoded reply = Some (JObject data) /\
     data !! "research" = Some research /\
     data !! "draft" = Some draft /\
     data !! "final_blog" = Some final_blog /\
     previewable research = true /\ previewable draft = true /\
     previewable final_blog = true) /\
  (test_blog_generation http topic tone length w).2 =
    (http (POST_generate
             (<["topic" := topic]>
                (<["tone" := tone]> (<["length" := length]> ∅)))) w).2.
Proof.
  rewrite test_blog_generation_eq.
  destruct (http _ w) as [[e|reply] w']; simpl.
  - split; [by eauto|]. split; [|done].
    split; [discriminate | by intros (? & ? & ? & ? & ? & [=] & _)].
  - split; [by eauto|]. split; [|done]. unfold shows_three_texts. split.
    + intros [= Hall]. apply andb_prop in Hall as [Hstatus Hall].
      apply Z.eqb_eq in Hstatus.
      destruct (decoded reply) as [[| | | | |data]|] eqn:Hbody; try done.
      destruct (data !! "research") as [r|] eqn:Hlr; [|done].
      destruct (data !! "draft") as [d|] eqn:Hld; [|done].
      destruct (data !! "final_blog") as [f|] eqn:Hlf; [|done].
      apply andb_prop in Hall as [Hall Hf]. apply andb_prop in Hall as [Hr Hd].
      by exists reply, data, r, d, f.
    + intros (? & data & r & d & f & [= <-] & Hstatus & -> & -> & -> & -> &
              -> & -> & ->).
      apply Z.eqb_eq in Hstatus. by rewrite Hstatus.
Qed.

(** X16. Run against this application, [test_blog_generation] returns true
    exactly when the handler returns a response for the request of that
    topic, tone and length, and costs the model calls of that request; for
    a length that is none of short, medium and long it returns false. *)
Theorem test_blog_generation_against_app (topic tone length : string) (w : World) :
  test_blog_generation (via_app repr provider {| llm_of := llm |})
    topic tone length w =
    (inr match (generate_blog {| BlogRequest.topic := topic;
                                 BlogRequest.tone := tone;
                                 BlogRequest.length := length |} w).1 with
         | inr _ => true
         | inl _ => false
         end,
     (generate_blog {| BlogRequest.topic := topic;
                       BlogRequest.tone := tone;
                       BlogRequest.length := length |} w).2) /\
  (length ∉ ["short"; "medium"; "long"] ->
   (test_blog_generation (via_app repr provider {| llm_of := llm |})
      topic tone length w).1 = inr false).
Proof.
  assert (Hrun :
    test_blog_generation (via_app repr provider {| llm_of := llm |})
      topic tone length w =
      (inr match (generate_blog {| BlogRequest.topic := topic;
                                   BlogRequest.tone := tone;
                                   BlogRequest.length := length |} w).1 with
           | inr _ => true
           | inl _ => false
           end,
       (generate_blog {| BlogRequest.topic := topic;
                         BlogRequest.tone := tone;
                         BlogRequest.length := length |} w).2)).
  { rewrite test_blog_generation_eq. unfold via_app, serve. simpl.
    unfold post_generate_body.
    assert (Hv : BlogRequest.validate
        (<["topic" := topic]> (<["tone" := tone]> (<["length" := length]> ∅))) =
        Some {| BlogRequest.topic := topic;
                BlogRequest.tone := tone;
                BlogRequest.length := length |}).
    { unfold BlogRequest.validate. by simplify_map_eq. }
    rewrite Hv, post_generate_eq.
    destruct (generate_blog _ w) as [[e|response] w'] eqn:Hg; simpl.
    - unfold generate_blog in Hg. rewrite generate_blog_with_eq in Hg.
      destruct (invoke blog_chain _ w) as [[exc|final] w0]; [|discriminate].
      by injection Hg as <- <-.
    - unfold shows_three_texts, response_body. simpl. rewrite !lookup_fmap.
      rewrite (lookup_insert_ne _ "topic" "research") by done.
      rewrite lookup_insert_eq.
      rewrite (lookup_insert_ne _ "topic" "draft") by done.
      rewrite (lookup_insert_ne _ "research" "draft") by done.
      rewrite lookup_insert_eq.
      rewrite (lookup_insert_ne _ "topic" "final_blog") by done.
      rewrite (lookup_insert_ne _ "research" "final_blog") by done.
      rewrite (lookup_insert_ne _ "draft" "final_blog") by done.
      by rewrite lookup_insert_eq. }
  split; [exact Hrun|].
  intros Hlen. rewrite Hrun. simpl. apply word_count_unknown in Hlen.
  rewrite (generate_blog_unknown_length
             {| BlogRequest.topic := topic; BlogRequest.tone := tone;
                BlogRequest.length := length |} w Hlen).
  cbv zeta. simpl. by destruct (provider llm w _).
Qed.

End Properties.

(** ** The statements at sample values *)

Lemma huge_not_recognized : "huge" ∉ ["short"; "medium"; "long"].
Proof.
  rewrite !elem_of_cons, elem_of_nil.
  intros [H | [H | [H | []]]]; discriminate H.
Defined.

Lemma medium_recognized : "medium" ∈ ["short"; "medium"; "long"].
Proof. apply list_elem_of_further, list_elem_of_here. Defined.

(** C1 at the request for a huge post, the model answering. *)
Lemma unknown_length_fails_in_writer_witness :
  ("huge" ∉ ["short"; "medium"; "long"]) /\
  writer_agent (scripted [inr "R"; inr "D"; inr "F"]) sample_llm
    (<["research" := "R"]> (request_inputs request_huge))
    [[HumanMessage (research_prompt "AI" "casual" "huge")]] =
    (inl (KeyError "huge"),
     [[HumanMessage (research_prompt "AI" "casual" "huge")]]) /\
  post_generate plain_repr (scripted [inr "R"; inr "D"; inr "F"]) sample_llm
    request_huge [] =
    ({| code := 500; body := <["detail" := "'huge'"]> ∅ |},
     [[HumanMessage (research_prompt "AI" "casual" "huge")]]).
Proof.
  split; [exact huge_not_recognized|].
  destruct (unknown_length_fails_in_writer plain_repr
              (scripted [inr "R"; inr "D"; inr "F"]) sample_llm
              request_huge [] huge_not_recognized) as [_ Hmodel].
  destruct (Hmodel "R" eq_refl) as (w1 & -> & _ & Hwriter & _ & Hpost).
  split; [exact Hwriter | exact Hpost].
Defined.

(** C2 at the request for a medium post: the three stages, their three
    calls and the final state. *)
Lemma blog_chain_three_stages_in_order_witness :
  invoke (blog_chain (scripted [inr "R"; inr "D"; inr "F"]) sample_llm)
    (request_inputs request_medium) [] =
    (inr (<["final_blog" := "F"]>
            (<["draft" := "D"]>
               (<["research" := "R"]> (request_inputs request_medium)))),
     [[HumanMessage (research_prompt "AI" "professional" "medium")];
      [HumanMessage (writer_prompt "R" "AI" "professional" "800-1200")];
      [HumanMessage (reviewer_prompt "D" "professional")]]).
Proof.
  destruct (blog_chain_three_stages_in_order
              (scripted [inr "R"; inr "D"; inr "F"]) sample_llm
              (request_inputs request_medium) []) as (_ & _ & Hreturns & _).
  apply Hreturns.
  exists "R", "D", "F",
    [HumanMessage (research_prompt "AI" "professional" "medium")],
    [HumanMessage (writer_prompt "R" "AI" "professional" "800-1200")],
    [HumanMessage (reviewer_prompt "D" "professional")].
  repeat split; vm_compute; reflexivity.
Defined.

(** C3 as the claim has it fails: on a state that already has a research
    text the research agent changes the value of that key and adds no key. *)
Lemma research_agent_replaces_an_existing_research :
  (<["research" := "old"]> (request_inputs request_medium)) !! "research"
    = Some "old" /\
  research_agent (scripted [inr "new"]) sample_llm
    (<["research" := "old"]> (request_inputs request_medium)) [] =
    (inr (<["research" := "new"]>
            (<["research" := "old"]> (request_inputs request_medium))),
     [[HumanMessage (research_prompt "AI" "professional" "medium")]]) /\
  (<["research" := "new"]>
     (<["research" := "old"]> (request_inputs request_medium))) !! "research"
    = Some "new" /\
  size (<["research" := "new"]>
          (<["research" := "old"]> (request_inputs request_medium))) = 4 /\
  size (<["research" := "old"]> (request_inputs request_medium)) = 4.
Proof. repeat split; vm_compute; reflexivity. Qed.

(** C3, amended, at the three stages of the request for a medium post: each
    returns the state it was given with the reply of the model under its
    key. *)
Lemma stages_set_their_key_and_keep_the_rest_witness :
  research_agent (scripted [inr "R"; inr "D"; inr "F"]) sample_llm
    (request_inputs request_medium) [] =
    (inr (<["research" := "R"]> (request_inputs request_medium)),
     [[HumanMessage (research_prompt "AI" "professional" "medium")]]) /\
  writer_agent (scripted [inr "R"; inr "D"; inr "F"]) sample_llm
    (<["research" := "R"]> (request_inputs request_medium))
    [[HumanMessage (research_prompt "AI" "professional" "medium")]] =
    (inr (<["draft" := "D"]>
            (<["research" := "R"]> (request_inputs request_medium))),
     [[HumanMessage (research_prompt "AI" "professional" "medium")];
      [HumanMessage (writer_prompt "R" "AI" "professional" "800-1200")]]) /\
  reviewer_agent (scripted [inr "R"; inr "D"; inr "F"]) sample_llm
    (<["draft" := "D"]> (<["research" := "R"]> (request_inputs request_medium)))
    [[HumanMessage (research_prompt "AI" "professional" "medium")];
     [HumanMessage (writer_prompt "R" "AI" "professional" "800-1200")]] =
    (inr (<["final_blog" := "F"]>
            (<["draft" := "D"]>
               (<["research" := "R"]> (request_inputs request_medium)))),
     [[HumanMessage (research_prompt "AI" "professional" "medium")];
      [HumanMessage (writer_prompt "R" "AI" "professional" "800-1200")];
      [HumanMessage (reviewer_prompt "D" "professional")]]) /\
  size (<["research" := "R"]> (request_inputs request_medium)) = 4.
Proof.
  split; [|split; [|split]].
  - destruct (stages_set_their_key_and_keep_the_rest
                (scripted [inr "R"; inr "D"; inr "F"]) sample_llm
                (request_inputs request_medium) []) as (Hresearch & _).
    apply Hresearch. exists "AI", "professional", "medium", "R".
    repeat split; vm_compute; reflexivity.
  - destruct (stages_set_their_key_and_keep_the_rest
                (scripted [inr "R"; inr "D"; inr "F"]) sample_llm
                (<["research" := "R"]> (request_inputs request_medium))
                [[HumanMessage (research_prompt "AI" "professional" "medium")]])
      as (_ & Hwriter & _).
    apply Hwriter. exists "R", "AI", "professional", "medium", "800-1200", "D".
    repeat split; vm_compute; reflexivity.
  - destruct (stages_set_their_key_and_keep_the_rest
                (scripted [inr "R"; inr "D"; inr "F"]) sample_llm
                (<["draft" := "D"]>
                   (<["research" := "R"]> (request_inputs request_medium)))
                [[HumanMessage (research_prompt "AI" "professional" "medium")];
                 [HumanMessage (writer_prompt "R" "AI" "professional" "800-1200")]])
      as (_ & _ & Hreviewer & _).
    apply Hreviewer. exists "D", "professional", "F".
    repeat split; vm_compute; reflexivity.
  - destruct (stages_set_their_key_and_keep_the_rest
                (scripted [inr "R"; inr "D"; inr "F"]) sample_llm
                (request_inputs request_medium) []) as (_ & _ & _ & Hkey & _).
    destruct (Hkey "research" "R") as (_ & (_ & _ & _ & Hsize) & _).
    rewrite Hsize; [reflexivity | vm_compute; reflexivity].
Defined.

(** C5 as the claim has it fails: a model that answers with empty texts
    gives a valid request a success response whose research, draft and
    final blog are empty. *)
Lemma empty_model_replies_give_empty_success_fields :
  "medium" ∈ ["short"; "medium"; "long"] /\
  generate_blog plain_repr (scripted [inr EmptyString; inr EmptyString; inr EmptyString])
    sample_llm request_medium [] =
    (inr {| BlogResponse.topic := "AI";
            BlogResponse.research := EmptyString;
            BlogResponse.draft := EmptyString;
            BlogResponse.final_blog := EmptyString;
            BlogResponse.status := "success" |},
     [[HumanMessage (research_prompt "AI" "professional" "medium")];
      [HumanMessage (writer_prompt EmptyString "AI" "professional" "800-1200")];
      [HumanMessage (reviewer_prompt EmptyString "professional")]]).
Proof. split; [exact medium_recognized | vm_compute; reflexivity]. Qed.

(** C5, amended, at the request for a medium post. *)
Lemma valid_request_response_carries_model_texts_witness :
  "medium" ∈ ["short"; "medium"; "long"] /\
  generate_blog plain_repr (scripted [inr "R"; inr "D"; inr "F"]) sample_llm
    request_medium [] =
    (inr {| BlogResponse.topic := "AI";
            BlogResponse.research := "R";
            BlogResponse.draft := "D";
            BlogResponse.final_blog := "F";
            BlogResponse.status := "success" |},
     [[HumanMessage (research_prompt "AI" "professional" "medium")];
      [HumanMessage (writer_prompt "R" "AI" "professional" "800-1200")];
      [HumanMessage (reviewer_prompt "D" "professional")]]).
Proof.
  split; [exact medium_recognized|].
  apply (valid_request_response_carries_model_texts plain_repr
           (scripted [inr "R"; inr "D"; inr "F"]) sample_llm request_medium []
           _ _ medium_recognized).
  exists "800-1200", "R", "D", "F",
    [HumanMessage (research_prompt "AI" "professional" "medium")],
    [HumanMessage (writer_prompt "R" "AI" "professional" "800-1200")],
    [HumanMessage (reviewer_prompt "D" "professional")].
  repeat split; vm_compute; reflexivity.
Defined.

(** C6 at the request for a huge post: the research text R was produced,
    the writer raised, and the body sent has the detail and nothing else. *)
Lemma failure_returns_detail_only_witness :
  generate_blog plain_repr (scripted [inr "R"; inr "D"; inr "F"]) sample_llm
    request_huge [] =
    (inl {| status_code := 500; detail := "'huge'" |},
     [[HumanMessage (research_prompt "AI" "casual" "huge")]]) /\
  post_generate plain_repr (scripted [inr "R"; inr "D"; inr "F"]) sample_llm
    request_huge [] =
    ({| code := 500; body := <["detail" := "'huge'"]> ∅ |},
     [[HumanMessage (research_prompt "AI" "casual" "huge")]]) /\
  body (post_generate plain_repr (scripted [inr "R"; inr "D"; inr "F"])
          sample_llm request_huge []).1 !! "research" = None.
Proof.
  assert (Hfail :
    generate_blog plain_repr (scripted [inr "R"; inr "D"; inr "F"]) sample_llm
      request_huge [] =
      (inl {| status_code := 500; detail := "'huge'" |},
       [[HumanMessage (research_prompt "AI" "casual" "huge")]]))
    by (vm_compute; reflexivity).
  split; [exact Hfail|].
  destruct (failure_returns_detail_only plain_repr
              (scripted [inr "R"; inr "D"; inr "F"]) sample_llm
              request_huge [] _ _ Hfail) as (_ & _ & Hpost & _ & Hresearch & _).
  split; [exact Hpost | exact Hresearch].
Defined.

(** C8 with an environment that has a port and no key, and no [.env]. *)
Lemma missing_key_fails_startup_witness :
  (<["PORT" := "8000"]> ∅ : gmap string string) !! OPENAI_API_KEY = None /\
  (∅ : gmap string string) !! OPENAI_API_KEY = None /\
  module_init ∅ (<["PORT" := "8000"]> ∅) =
    inl (ValueError "OPENAI_API_KEY not found in environment variables") /\
  start plain_repr (scripted []) ∅ (<["PORT" := "8000"]> ∅) =
    inl (ValueError "OPENAI_API_KEY not found in environment variables").
Proof.
  assert (Henv : (<["PORT" := "8000"]> ∅ : gmap string string) !! OPENAI_API_KEY = None)
    by (vm_compute; reflexivity).
  assert (Hfile : (∅ : gmap string string) !! OPENAI_API_KEY = None)
    by (vm_compute; reflexivity).
  split; [exact Henv|]. split; [exact Hfile|].
  destruct (missing_key_fails_startup plain_repr (scripted []) _ _ Henv Hfile)
    as (_ & Hinit & Hstart & _).
  split; [exact Hinit | exact Hstart].
Defined.

(** C9 at the body that has the topic only. *)
Lemma omitted_tone_and_length_default_witness :
  (<["topic" := "AI"]> ∅ : gmap string string) !! "topic" = Some "AI" /\
  (<["topic" := "AI"]> ∅ : gmap string string) !! "tone" = None /\
  (<["topic" := "AI"]> ∅ : gmap string string) !! "length" = None /\
  BlogRequest.validate (<["topic" := "AI"]> ∅) = Some request_medium /\
  post_generate_body plain_repr (scripted [inr "R"; inr "D"; inr "F"]) sample_llm
    (<["topic" := "AI"]> ∅) [] =
  post_generate plain_repr (scripted [inr "R"; inr "D"; inr "F"]) sample_llm
    request_medium [].
Proof.
  assert (Htopic : (<["topic" := "AI"]> ∅ : gmap string string) !! "topic" = Some "AI")
    by (vm_compute; reflexivity).
  assert (Htone : (<["topic" := "AI"]> ∅ : gmap string string) !! "tone" = None)
    by (vm_compute; reflexivity).
  assert (Hlength : (<["topic" := "AI"]> ∅ : gmap string string) !! "length" = None)
    by (vm_compute; reflexivity).
  split; [exact Htopic|]. split; [exact Htone|]. split; [exact Hlength|].
  destruct (omitted_tone_and_length_default plain_repr
              (scripted [inr "R"; inr "D"; inr "F"]) sample_llm
              _ _ [] Htopic) as (_ & _ & _ & Hboth).
  exact (Hboth Htone Hlength).
Defined.

(** C10 at a chain that stops after the research stage: the final state has
    no draft and no final blog, and the response is a success with both
    empty. *)
Lemma success_response_defaults_missing_fields_witness :
  invoke [research_agent (scripted [inr "R"; inr "D"; inr "F"]) sample_llm]
    (request_inputs request_medium) [] =
    (inr (<["research" := "R"]> (request_inputs request_medium)),
     [[HumanMessage (research_prompt "AI" "professional" "medium")]]) /\
  generate_blog_with plain_repr
    [research_agent (scripted [inr "R"; inr "D"; inr "F"]) sample_llm]
    request_medium [] =
    (inr {| BlogResponse.topic := "AI";
            BlogResponse.research := "R";
            BlogResponse.draft := EmptyString;
            BlogResponse.final_blog := EmptyString;
            BlogResponse.status := "success" |},
     [[HumanMessage (research_prompt "AI" "professional" "medium")]]).
Proof.
  assert (Hrun :
    invoke [research_agent (scripted [inr "R"; inr "D"; inr "F"]) sample_llm]
      (request_inputs request_medium) [] =
      (inr (<["research" := "R"]> (request_inputs request_medium)),
       [[HumanMessage (research_prompt "AI" "professional" "medium")]]))
    by (vm_compute; reflexivity).
  split; [exact Hrun|].
  destruct (success_response_defaults_missing_fields plain_repr _ _ _ _ _ Hrun)
    as (Hresponse & _).
  rewrite Hresponse. f_equal.
Defined.

(** X2 at the request for a huge post, with a provider that fails at once. *)
Lemma unknown_length_costs_one_call_witness :
  ("huge" ∉ ["short"; "medium"; "long"]) /\
  (post_generate plain_repr (scripted []) sample_llm request_huge []).2 =
    [[HumanMessage (research_prompt "AI" "casual" "huge")]] /\
  code (post_generate plain_repr (scripted []) sample_llm request_huge []).1
    = 500%Z.
Proof.
  split; [exact huge_not_recognized|].
  exact (unknown_length_costs_one_call plain_repr (scripted []) sample_llm
           request_huge [] huge_not_recognized).
Defined.

(** X3 at a state that has a tone and no topic. *)
Lemma research_agent_missing_key_witness :
  (<["tone" := "casual"]> ∅ : gmap string string) !! "topic" = None /\
  research_agent (scripted [inr "R"]) sample_llm (<["tone" := "casual"]> ∅) [] =
    (inl (KeyError "topic"), []).
Proof.
  assert (Htopic : (<["tone" := "casual"]> ∅ : gmap string string) !! "topic" = None)
    by (vm_compute; reflexivity).
  split; [exact Htopic|].
  destruct (research_agent_missing_key (scripted [inr "R"]) sample_llm
              (<["tone" := "casual"]> ∅) []) as [Hmissing _].
  exact (Hmissing Htopic).
Defined.

(** X4 at the state of a request for a huge post before any research: the
    missing research is reported, not the length. *)
Lemma writer_agent_missing_key_witness :
  request_inputs request_huge !! "research" = None /\
  writer_agent (scripted [inr "R"]) sample_llm (request_inputs request_huge) [] =
    (inl (KeyError "research"), []).
Proof.
  assert (Hresearch : request_inputs request_huge !! "research" = None)
    by (vm_compute; reflexivity).
  split; [exact Hresearch|].
  destruct (writer_agent_missing_key (scripted [inr "R"]) sample_llm
              (request_inputs request_huge) []) as [Hmissing _].
  exact (Hmissing Hresearch).
Defined.

(** X5 at a state with a draft and a tone only, beside the full state of a
    request. *)
Lemma reviewer_agent_reads_draft_and_tone_witness :
  (reviewer_agent (scripted [inr "F"]) sample_llm
     (<["draft" := "D"]> (<["tone" := "professional"]> ∅)) []).2 =
  (reviewer_agent (scripted [inr "F"]) sample_llm
     (<["draft" := "D"]> (<["research" := "R"]> (request_inputs request_medium)))
     []).2.
Proof.
  destruct (reviewer_agent_reads_draft_and_tone (scripted [inr "F"]) sample_llm
              (<["draft" := "D"]> (<["tone" := "professional"]> ∅))
              (<["draft" := "D"]>
                 (<["research" := "R"]> (request_inputs request_medium))) [])
    as [_ Hsame].
  assert (Hdraft :
    (<["draft" := "D"]> (<["tone" := "professional"]> ∅) : gmap string string)
      !! "draft" =
    (<["draft" := "D"]> (<["research" := "R"]> (request_inputs request_medium)))
      !! "draft") by (vm_compute; reflexivity).
  assert (Htone :
    (<["draft" := "D"]> (<["tone" := "professional"]> ∅) : gmap string string)
      !! "tone" =
    (<["draft" := "D"]> (<["research" := "R"]> (request_inputs request_medium)))
      !! "tone") by (vm_compute; reflexivity).
  exact (proj1 (Hsame Hdraft Htone)).
Defined.

(** X8 with the key set to the empty string in the environment and a key
    in the file. *)
Lemma environment_comes_before_dotenv_witness :
  (<[OPENAI_API_KEY := EmptyString]> ∅ : gmap string string) !! OPENAI_API_KEY
    = Some EmptyString /\
  module_init (<[OPENAI_API_KEY := "sk-file"]> ∅)
              (<[OPENAI_API_KEY := EmptyString]> ∅) =
    inl (ValueError "OPENAI_API_KEY not found in environment variables").
Proof.
  assert (Henv :
    (<[OPENAI_API_KEY := EmptyString]> ∅ : gmap string string) !! OPENAI_API_KEY
      = Some EmptyString) by (vm_compute; reflexivity).
  split; [exact Henv|].
  destruct (environment_comes_before_dotenv
              (<[OPENAI_API_KEY := "sk-file"]> ∅)
              (<[OPENAI_API_KEY := EmptyString]> ∅)) as (_ & Hempty & _).
  exact (Hempty Henv).
Defined.


(** X11 at the research agent run on a state that has a research text. *)
Lemma stage_overwrites_its_own_key_witness :
  research_agent (scripted [inr "new"]) sample_llm
    (<["research" := "old"]> (request_inputs request_medium)) [] =
    (inr (<["research" := "new"]>
            (<["research" := "old"]> (request_inputs request_medium))),
     [[HumanMessage (research_prompt "AI" "professional" "medium")]]) /\
  size (<["research" := "new"]>
          (<["research" := "old"]> (request_inputs request_medium))) =
  size (<["research" := "old"]> (request_inputs request_medium)).
Proof.
  destruct (stage_overwrites_its_own_key (scripted [inr "new"]) sample_llm
              (<["research" := "old"]> (request_inputs request_medium)) [])
    as [Hresearch _].
  destruct (Hresearch "old" "AI" "professional" "medium" "new")
    as (Hrun & _ & _ & Hsize); try (vm_compute; reflexivity).
  split; [exact Hrun | exact Hsize].
Defined.

(** X12 with a provider that answers the research call and fails at the
    writer call. *)
Lemma provider_error_surfaces_witness :
  post_generate plain_repr (scripted [inr "R"; inl (ProviderError "Rate limit")])
    sample_llm request_medium [] =
    ({| code := 500; body := <["detail" := "Rate limit"]> ∅ |},
     [[HumanMessage (research_prompt "AI" "professional" "medium")];
      [HumanMessage (writer_prompt "R" "AI" "professional" "800-1200")]]).
Proof.
  destruct (provider_error_surfaces plain_repr
              (scripted [inr "R"; inl (ProviderError "Rate limit")])
              sample_llm request_medium []) as (_ & Hwriter & _).
  apply (Hwriter "R" "800-1200" _ _ (ProviderError "Rate limit")
           eq_refl eq_refl eq_refl);
    vm_compute; reflexivity.
Defined.

(** X9 at a body whose topic is a number, and at one whose tone is [null]:
    both have a topic and are answered 422 with no model call. *)
Lemma post_generate_json_codes_witness :
  post_generate_json plain_repr (scripted [inr "R"; inr "D"; inr "F"]) sample_llm
    (<["topic" := JNumber (123 # 1)]> ∅) [] =
    ({| code := 422; body := <["detail" := "topic"]> ∅ |}, []) /\
  post_generate_json plain_repr (scripted [inr "R"; inr "D"; inr "F"]) sample_llm
    (<["topic" := JString "AI"]> (<["tone" := JNull]> ∅)) [] =
    ({| code := 422; body := <["detail" := "tone"]> ∅ |}, []).
Proof.
  split.
  - destruct (post_generate_json_codes plain_repr
                (scripted [inr "R"; inr "D"; inr "F"]) sample_llm
                (<["topic" := JNumber (123 # 1)]> ∅) []) as (_ & _ & Hrefused & _).
    apply Hrefused. vm_compute; reflexivity.
  - destruct (post_generate_json_codes plain_repr
                (scripted [inr "R"; inr "D"; inr "F"]) sample_llm
                (<["topic" := JString "AI"]> (<["tone" := JNull]> ∅)) [])
      as (_ & _ & Hrefused & _).
    apply Hrefused. vm_compute; reflexivity.
Defined.

(** X14 at a 200 whose body is not JSON: the verdict is false. *)
Lemma test_health_check_verdict_witness :
  (test_health_check not_json_server []).1 = inr false.
Proof.
  destruct (test_health_check_verdict plain_repr (scripted []) not_json_server
              {| llm_of := sample_llm |} []) as ([verdict Hverdict] & Htrue & _).
  destruct verdict; [|exact Hverdict].
  apply Htrue in Hverdict as (reply & Hreply & _ & [value Hvalue]).
  injection Hreply as <-. discriminate Hvalue.
Defined.

(** X15 at a 200 whose research is a number: the three keys are there and
    the verdict is false. *)
Lemma test_blog_generation_verdict_witness :
  (test_blog_generation number_server "AI" "casual" "short" []).1 = inr false.
Proof.
  destruct (test_blog_generation_verdict number_server "AI" "casual" "short" [])
    as ([verdict Hverdict] & Htrue & _).
  destruct verdict; [|exact Hverdict].
  apply Htrue in Hverdict
    as (reply & data & r & d & f & Hreply & _ & Hbody & Hr & _ & _ & Hshown & _).
  injection Hreply as <-. injection Hbody as <-.
  assert (Hnumber : r = JNumber (1 # 1))
    by (vm_compute in Hr; by injection Hr as <-).
  rewrite Hnumber in Hshown. discriminate Hshown.
Defined.
